(** * Qi async runtime: the platform time-and-scheduling syscall layer

    A shallow embedding of [src/runtime/async_runtime/c_runtime/syscalls.c]
    and the properties its specification states about it.

    The five C functions talk to the operating system.  Each one is embedded
    as a finite program over the OS calls it makes ([prog]); the operating
    system is an arbitrary state transformer answering those calls
    ([os_model]), and [run] executes a program against it, recording the
    calls in the order they are made.

    Integer model (LP64 POSIX, LLP64 Windows): [int] is 32 bits, [long],
    [time_t], [long long], [int64_t] and [LONGLONG] are 64 bits signed,
    [DWORD] is 32 bits unsigned, [ULONGLONG] is 64 bits unsigned.  Values are
    in [Z]; every C operation that can leave the range of its type reduces
    its result modulo the width of the type.

    The statics of [runtime/src/errors.c] (last error and its message) and
    of [runtime/src/memory.c] (the allocation counter) are embedded as
    explicit state, in the modules [Errors] and [Memory]. *)

From Stdlib Require Import ZArith List Lia String Bool.
From Stdlib Require Import Strings.Byte.
Import ListNotations.
Local Open Scope Z_scope.

(** ** Machine integers *)

Module CInt.

Definition wrap_unsigned (w x : Z) : Z := x mod 2 ^ w.

Definition wrap_signed (w x : Z) : Z :=
  (x + 2 ^ (w - 1)) mod 2 ^ w - 2 ^ (w - 1).

Definition INT_MIN : Z := - 2 ^ 31.
Definition INT_MAX : Z := 2 ^ 31 - 1.
Definition INT64_MIN : Z := - 2 ^ 63.
Definition INT64_MAX : Z := 2 ^ 63 - 1.
Definition UINT32_MAX : Z := 2 ^ 32 - 1.

Definition in_int (x : Z) : Prop := INT_MIN <= x <= INT_MAX.
Definition in_int64 (x : Z) : Prop := INT64_MIN <= x <= INT64_MAX.
Definition in_dword (x : Z) : Prop := 0 <= x <= UINT32_MAX.

(** Conversions to a type: the value modulo the width. *)
Definition to_int : Z -> Z := wrap_signed 32.
Definition to_int64 : Z -> Z := wrap_signed 64.
Definition to_dword : Z -> Z := wrap_unsigned 32.
Definition to_uint64 : Z -> Z := wrap_unsigned 64.

(** C's [/] and [%] truncate towards zero.  A division that the machine
    faults on has no value here: programs test for it with [ll_div_faults]
    and trap (see [counter_ns]). *)
Definition int_div (a b : Z) : Z := to_int (Z.quot a b).
Definition int_rem (a b : Z) : Z := to_int (Z.rem a b).
Definition int_mul (a b : Z) : Z := to_int (a * b).

Definition ll_mul (a b : Z) : Z := to_int64 (a * b).
Definition ll_add (a b : Z) : Z := to_int64 (a + b).
Definition ll_div (a b : Z) : Z := to_int64 (Z.quot a b).

(** The signed 64-bit division faults (SIGFPE, or the Windows integer
    exceptions) on a zero divisor and on [INT64_MIN / -1], whose quotient is
    not an [int64_t]. *)
Definition ll_div_faults (a b : Z) : bool :=
  (b =? 0) || ((a =? INT64_MIN) && (b =? -1)).

Definition ull_add (a b : Z) : Z := to_uint64 (a + b).
Definition ull_mul (a b : Z) : Z := to_uint64 (a * b).

End CInt.
Import CInt.

(** ** Platform data *)

(** The build-time selection made by [#ifdef _WIN32] / [#elif
    defined(__APPLE__)] / [#else]. *)
Inductive platform : Type :=
| Win32
| Apple
| Posix.

Definition is_win32 (p : platform) : bool :=
  match p with Win32 => true | _ => false end.

Record timespec : Type := mk_timespec {
  tv_sec : Z;   (* time_t *)
  tv_nsec : Z   (* long *)
}.

Inductive clockid : Type :=
| CLOCK_MONOTONIC
| CLOCK_PROCESS_CPUTIME_ID.

Inductive sysconf_name : Type :=
| _SC_NPROCESSORS_ONLN.

Record FILETIME : Type := mk_FILETIME {
  dwLowDateTime : Z;    (* DWORD *)
  dwHighDateTime : Z    (* DWORD *)
}.

(** What [GetProcessTimes] writes through its four out-pointers. *)
Record process_times : Type := mk_process_times {
  creation_time : FILETIME;
  exit_time : FILETIME;
  kernel_time : FILETIME;
  user_time : FILETIME
}.

Record SYSTEM_INFO : Type := mk_SYSTEM_INFO {
  dwNumberOfProcessors : Z   (* DWORD *)
}.

(** [ULARGE_INTEGER]: the 64-bit [QuadPart] seen through the union with its
    two 32-bit halves. *)
Definition QuadPart (LowPart HighPart : Z) : Z :=
  Z.lor (Z.shiftl HighPart 32) LowPart.

(** ** The operating system interface *)

(** The OS entry points the file calls, with the arguments it passes. *)
Inductive oscall : Type :=
| nanosleep (req : timespec)
| Sleep (dwMilliseconds : Z)
| QueryPerformanceFrequency
| QueryPerformanceCounter
| clock_gettime (clk : clockid)
| GetCurrentProcess
| GetProcessTimes (hProcess : Z)
| SwitchToThread
| sched_yield
| sysconf (name : sysconf_name)
| GetSystemInfo.

(** What each entry point hands back: its return value, and what it wrote
    through its out-pointer when it has one. *)
Definition resp (c : oscall) : Type :=
  match c with
  | nanosleep _ => Z                          (* int *)
  | Sleep _ => unit                           (* void *)
  | QueryPerformanceFrequency => (Z * Z)%type (* BOOL, frequency.QuadPart *)
  | QueryPerformanceCounter => (Z * Z)%type   (* BOOL, counter.QuadPart *)
  | clock_gettime _ => (Z * timespec)%type    (* int, ts *)
  | GetCurrentProcess => Z                    (* HANDLE *)
  | GetProcessTimes _ => (Z * process_times)%type
  | SwitchToThread => Z                       (* BOOL *)
  | sched_yield => Z                          (* int *)
  | sysconf _ => Z                            (* long *)
  | GetSystemInfo => SYSTEM_INFO
  end.

(** The calls that suspend the calling thread. *)
Definition is_wait (c : oscall) : bool :=
  match c with
  | nanosleep _ | Sleep _ => true
  | _ => false
  end.

(** ** Programs *)

(** A C function body as a finite tree: it returns, it stops on a trapping
    operation (integer division by zero), it calls the OS and goes on with
    the answer, or it reads or writes an object of static storage duration
    of the translation unit. *)
Inductive prog (A : Type) : Type :=
| Ret (a : A)
| Trap
| Sys (c : oscall) (k : resp c -> prog A)
| LoadStatic (x : string) (k : Z -> prog A)
| StoreStatic (x : string) (v : Z) (k : prog A).

Arguments Ret {A} a.
Arguments Trap {A}.
Arguments Sys {A} c k.
Arguments LoadStatic {A} x k.
Arguments StoreStatic {A} x v k.

Fixpoint bind {A B : Type} (p : prog A) (f : A -> prog B) : prog B :=
  match p with
  | Ret a => f a
  | Trap => Trap
  | Sys c k => Sys c (fun r => bind (k r) f)
  | LoadStatic x k => LoadStatic x (fun v => bind (k v) f)
  | StoreStatic x v k => StoreStatic x v (bind k f)
  end.

Definition call (c : oscall) : prog (resp c) := Sys c Ret.

Declare Scope prog_scope.
Delimit Scope prog_scope with prog.
Notation "x <- p ;; q" := (bind p (fun x => q))
  (at level 61, p at next level, right associativity) : prog_scope.
Notation "' pat <- p ;; q" := (bind p (fun x => match x with pat => q end))
  (at level 61, pat pattern, p at next level, right associativity) : prog_scope.
Local Open Scope prog_scope.

(** ** Running a program *)

Inductive event : Type :=
| EvSys (c : oscall)
| EvLoad (x : string)
| EvStore (x : string) (v : Z).

Definition is_static_access (e : event) : bool :=
  match e with
  | EvSys _ => false
  | EvLoad _ | EvStore _ _ => true
  end.

Definition event_is_wait (e : event) : bool :=
  match e with
  | EvSys c => is_wait c
  | _ => false
  end.

Inductive outcome (A : Type) : Type :=
| Returned (a : A)
| Trapped.

Arguments Returned {A} a.
Arguments Trapped {A}.

(** An operating system with internal state [W]: each call is answered from
    the current state and moves it on. *)
Definition os_model (W : Type) : Type := forall c : oscall, W -> resp c * W.

(** The process as the layer sees it: the statics of the translation unit
    and the state of the OS. *)
Record machine (W : Type) : Type := mk_machine {
  statics : string -> Z;
  os : W
}.

Arguments mk_machine {W} statics os.
Arguments statics {W} m.
Arguments os {W} m.

Definition store_static {W : Type} (x : string) (v : Z) (m : machine W) : machine W :=
  mk_machine (fun y => if String.eqb x y then v else statics m y) (os m).

Record result (W A : Type) : Type := mk_result {
  value : outcome A;
  final : machine W;
  trace : list event
}.

Arguments mk_result {W A} value final trace.
Arguments value {W A} r.
Arguments final {W A} r.
Arguments trace {W A} r.

Definition logged {W A : Type} (e : event) (r : result W A) : result W A :=
  mk_result (value r) (final r) (e :: trace r).

Fixpoint run {W A : Type} (h : os_model W) (p : prog A) (m : machine W) : result W A :=
  match p with
  | Ret a => mk_result (Returned a) m []
  | Trap => mk_result Trapped m []
  | Sys c k =>
      let (r, w) := h c (os m) in
      logged (EvSys c) (run h (k r) (mk_machine (statics m) w))
  | LoadStatic x k => logged (EvLoad x) (run h (k (statics m x)) m)
  | StoreStatic x v k => logged (EvStore x v) (run h k (store_static x v m))
  end.

(** A program that never reads or writes a static. *)
Fixpoint no_statics {A : Type} (p : prog A) : Prop :=
  match p with
  | Ret _ | Trap => True
  | Sys _ k => forall r, no_statics (k r)
  | LoadStatic _ _ | StoreStatic _ _ _ => False
  end.

(** A run in which no static was read or written. *)
Definition static_free (t : list event) : bool :=
  forallb (fun e => negb (is_static_access e)) t.

(** ** The five operations of syscalls.c *)

(** The [struct timespec req] that the POSIX branch of the sleep fills in:
    [ms / 1000] and [(ms % 1000) * 1000000] are computed in [int] and stored
    in a [time_t] and a [long]. *)
Definition sleep_req (ms : Z) : timespec :=
  {| tv_sec := to_int64 (int_div ms 1000);
     tv_nsec := to_int64 (int_mul (int_rem ms 1000) 1000000) |}.

Definition qi_async_sys_sleep_ms (p : platform) (ms : Z) : prog Z :=
  if ms <? 0 then Ret (-1)
  else
    match p with
    | Win32 =>
        _ <- call (Sleep (to_dword ms)) ;;
        Ret 0
    | _ =>
        r <- call (nanosleep (sleep_req ms)) ;;
        if r =? -1 then Ret (-1) else Ret 0
    end.

(** [ts.tv_sec * 1000000000LL + ts.tv_nsec], converted to [int64_t]. *)
Definition timespec_ns (ts : timespec) : Z :=
  to_int64 (ll_add (ll_mul (tv_sec ts) 1000000000) (tv_nsec ts)).

Definition read_clock_ns (clk : clockid) : prog Z :=
  '(rc, ts) <- call (clock_gettime clk) ;;
  if negb (rc =? 0) then Ret (-1) else Ret (timespec_ns ts).

(** [(int64_t)((counter.QuadPart * 1000000000LL) / frequency.QuadPart)]. *)
Definition counter_to_ns (counter frequency : Z) : Z :=
  to_int64 (ll_div (ll_mul counter 1000000000) frequency).

(** The division traps when the machine faults on it: on a zero frequency,
    and on a frequency of -1 when the product is [INT64_MIN]. *)
Definition counter_ns (counter frequency : Z) : prog Z :=
  if ll_div_faults (ll_mul counter 1000000000) frequency then Trap
  else Ret (counter_to_ns counter frequency).

Definition qi_async_sys_monotonic_time_ns (p : platform) : prog Z :=
  match p with
  | Win32 =>
      '(ok_f, frequency) <- call QueryPerformanceFrequency ;;
      if ok_f =? 0 then Ret (-1)
      else
        '(ok_c, counter) <- call QueryPerformanceCounter ;;
        if ok_c =? 0 then Ret (-1)
        else counter_ns counter frequency
  | Apple => read_clock_ns CLOCK_MONOTONIC
  | Posix => read_clock_ns CLOCK_MONOTONIC
  end.

Definition filetime_ticks (ft : FILETIME) : Z :=
  QuadPart (dwLowDateTime ft) (dwHighDateTime ft).

(** [(kernel.QuadPart + user.QuadPart) * 100], converted to [int64_t]. *)
Definition process_times_ns (pt : process_times) : Z :=
  let kernel := filetime_ticks (kernel_time pt) in
  let user := filetime_ticks (user_time pt) in
  to_int64 (ull_mul (ull_add kernel user) 100).

Definition qi_async_sys_cpu_time_ns (p : platform) : prog Z :=
  match p with
  | Win32 =>
      hProcess <- call GetCurrentProcess ;;
      '(ok, pt) <- call (GetProcessTimes hProcess) ;;
      if ok =? 0 then Ret (-1) else Ret (process_times_ns pt)
  | _ => read_clock_ns CLOCK_PROCESS_CPUTIME_ID
  end.

Definition qi_async_sys_yield (p : platform) : prog Z :=
  match p with
  | Win32 =>
      _ <- call SwitchToThread ;;
      Ret 0
  | _ =>
      r <- call sched_yield ;;
      if r =? -1 then Ret (-1) else Ret 0
  end.

Definition qi_async_sys_cpu_count (p : platform) : prog Z :=
  match p with
  | Win32 =>
      sys_info <- call GetSystemInfo ;;
      Ret (to_int (dwNumberOfProcessors sys_info))
  | _ =>
      nprocs <- call (sysconf _SC_NPROCESSORS_ONLN) ;;
      if nprocs =? -1 then Ret (-1) else Ret (to_int nprocs)
  end.

(** The operations as calls, and sequences of calls, for statements about
    successive calls to the layer. *)
Inductive layer_op : Type :=
| OpSleep (ms : Z)
| OpMonotonic
| OpCpuTime
| OpYield
| OpCpuCount.

Definition layer_prog (p : platform) (op : layer_op) : prog Z :=
  match op with
  | OpSleep ms => qi_async_sys_sleep_ms p ms
  | OpMonotonic => qi_async_sys_monotonic_time_ns p
  | OpCpuTime => qi_async_sys_cpu_time_ns p
  | OpYield => qi_async_sys_yield p
  | OpCpuCount => qi_async_sys_cpu_count p
  end.

Fixpoint layer_calls (p : platform) (ops : list layer_op) : prog (list Z) :=
  match ops with
  | [] => Ret []
  | op :: rest =>
      v <- layer_prog p op ;;
      vs <- layer_calls p rest ;;
      Ret (v :: vs)
  end.

(** The two clock reads of the layer. *)
Inductive clock_op : Type :=
| Monotonic
| CpuTime.

Definition clock_prog (p : platform) (op : clock_op) : prog Z :=
  match op with
  | Monotonic => qi_async_sys_monotonic_time_ns p
  | CpuTime => qi_async_sys_cpu_time_ns p
  end.

Definition clock_of (op : clock_op) : clockid :=
  match op with
  | Monotonic => CLOCK_MONOTONIC
  | CpuTime => CLOCK_PROCESS_CPUTIME_ID
  end.

(** What the OS answers to the calls an operation makes, read off the OS
    model at a given OS state. *)
Section Answers.
Context {W : Type} (h : os_model W).

Definition answer (c : oscall) (w : W) : resp c := fst (h c w).
Definition after (c : oscall) (w : W) : W := snd (h c w).

(** The processor count the OS reports to the core-count query. *)
Definition reported_cores (p : platform) (w : W) : Z :=
  match p with
  | Win32 => dwNumberOfProcessors (answer GetSystemInfo w)
  | _ => answer (sysconf _SC_NPROCESSORS_ONLN) w
  end.

(** What [GetProcessTimes] answers to the CPU-time read started in OS state
    [w]: it is called on the handle [GetCurrentProcess] has just returned. *)
Definition process_times_answer (w : W) : Z * process_times :=
  answer (GetProcessTimes (answer GetCurrentProcess w)) (after GetCurrentProcess w).

(** The platform clock API reports an error to a clock read started in
    OS state [w]: [clock_gettime] answers non-zero; on Windows
    [GetProcessTimes] answers FALSE, or [QueryPerformanceFrequency] does,
    or the [QueryPerformanceCounter] that follows it does. *)
Definition clock_api_error (p : platform) (op : clock_op) (w : W) : bool :=
  match p, op with
  | Win32, Monotonic =>
      (fst (answer QueryPerformanceFrequency w) =? 0)
      || (fst (answer QueryPerformanceCounter (after QueryPerformanceFrequency w)) =? 0)
  | Win32, CpuTime => fst (process_times_answer w) =? 0
  | _, _ => negb (fst (answer (clock_gettime (clock_of op)) w) =? 0)
  end.

(** What the reading the API hands back in OS state [w] amounts to in
    nanoseconds, by the conversion of each platform. *)
Definition clock_api_value (p : platform) (op : clock_op) (w : W) : outcome Z :=
  match p, op with
  | Win32, Monotonic =>
      let frequency := snd (answer QueryPerformanceFrequency w) in
      let counter :=
        snd (answer QueryPerformanceCounter (after QueryPerformanceFrequency w)) in
      if ll_div_faults (ll_mul counter 1000000000) frequency then Trapped
      else Returned (counter_to_ns counter frequency)
  | Win32, CpuTime => Returned (process_times_ns (snd (process_times_answer w)))
  | _, _ => Returned (timespec_ns (snd (answer (clock_gettime (clock_of op)) w)))
  end.

(** The number of OS calls that suspend the thread, in a run. *)
Definition waits {A : Type} (r : result W A) : nat :=
  List.length (List.filter event_is_wait (trace r)).
End Answers.

(** ** Concrete operating systems, to run the operations on *)

(** An OS whose answer is fixed by the call and by how many calls it has
    answered before. *)
Definition scripted (answers : forall c : oscall, nat -> resp c) : os_model nat :=
  fun c n => (answers c n, S n).

Definition zero_FILETIME : FILETIME := mk_FILETIME 0 0.

(** Every call succeeds: the clocks read [clock n] at the n-th call, the
    performance counter reads [counter n] at frequency [frequency], and
    [cores] processors are reported. *)
Definition healthy_os (clock : nat -> timespec) (frequency : Z)
    (counter : nat -> Z) (cores : Z) : os_model nat :=
  scripted (fun c n =>
    match c return resp c with
    | nanosleep _ => 0
    | Sleep _ => tt
    | QueryPerformanceFrequency => (1, frequency)
    | QueryPerformanceCounter => (1, counter n)
    | clock_gettime _ => (0, clock n)
    | GetCurrentProcess => -1
    | GetProcessTimes _ =>
        (1, mk_process_times zero_FILETIME zero_FILETIME
              (mk_FILETIME (Z.of_nat n) 0) (mk_FILETIME (Z.of_nat n) 0))
    | SwitchToThread => 1
    | sched_yield => 0
    | sysconf _ => cores
    | GetSystemInfo => mk_SYSTEM_INFO cores
    end).

(** Every call that can report failure does. *)
Definition failing_os : os_model nat :=
  scripted (fun c _ =>
    match c return resp c with
    | nanosleep _ => -1
    | Sleep _ => tt
    | QueryPerformanceFrequency => (0, 0)
    | QueryPerformanceCounter => (0, 0)
    | clock_gettime _ => (-1, mk_timespec 0 0)
    | GetCurrentProcess => -1
    | GetProcessTimes _ =>
        (0, mk_process_times zero_FILETIME zero_FILETIME zero_FILETIME zero_FILETIME)
    | SwitchToThread => 0
    | sched_yield => -1
    | sysconf _ => -1
    | GetSystemInfo => mk_SYSTEM_INFO 0
    end).

(** The OS [sys], except that [GetProcessTimes] succeeds and reports [pt]. *)
Definition reporting_times (pt : process_times) (sys : os_model nat) : os_model nat :=
  fun c =>
    match c as c0 return nat -> resp c0 * nat with
    | GetProcessTimes _ => fun n => ((1, pt), S n)
    | c0 => sys c0
    end.

Definition boot : machine nat := mk_machine (fun _ => 0) 0%nat.

(** A monotonic clock 292 years after its epoch: two readings one second
    minus one nanosecond apart. *)
Definition late_clock (n : nat) : timespec :=
  match n with
  | O => mk_timespec 9223372036 0
  | S _ => mk_timespec 9223372036 999999999
  end.

(** A clock one nanosecond before its epoch. *)
Definition eve_clock (n : nat) : timespec := mk_timespec (-1) 999999999.

(** A clock that advances a second per call. *)
Definition second_clock (n : nat) : timespec := mk_timespec (Z.of_nat n) 0.

(** A 10 MHz performance counter around its 9223372036th tick (some fifteen
    minutes after it started): one tick between the first and the second
    read of the monotonic clock. *)
Definition early_counter (n : nat) : Z :=
  if (n <=? 1)%nat then 9223372036 else 9223372037.

(** ** Orders and ranges on clock readings *)

(** A normalised [timespec], as [clock_gettime] produces. *)
Definition timespec_valid (ts : timespec) : Prop :=
  in_int64 (tv_sec ts) /\ 0 <= tv_nsec ts < 1000000000.

(** The reading [a] is not later than the reading [b]. *)
Definition timespec_le (a b : timespec) : Prop :=
  tv_sec a < tv_sec b \/ (tv_sec a = tv_sec b /\ tv_nsec a <= tv_nsec b).

(** The reading, counted in nanoseconds, is an [int64_t]. *)
Definition timespec_fits (ts : timespec) : Prop :=
  in_int64 (tv_sec ts * 1000000000 + tv_nsec ts).

(** The difference of two timestamps as a caller takes it, in [int64_t]. *)
Definition ll_sub (a b : Z) : Z := to_int64 (a - b).

(** ** errors.c: the last error and its message *)

Module Errors.

Inductive qi_error_code_t : Type :=
| QI_ERROR_NONE
| QI_ERROR_OUT_OF_MEMORY
| QI_ERROR_INVALID_ARGUMENT
| QI_ERROR_DIVISION_BY_ZERO
| QI_ERROR_INDEX_OUT_OF_BOUNDS
| QI_ERROR_STACK_OVERFLOW
| QI_ERROR_UNDEFINED.

(** [sizeof(error_message)]. *)
Definition error_message_size : nat := 256.

(** The two statics of the file: [last_error] and the array
    [error_message]. *)
Record error_state : Type := mk_error_state {
  last_error : qi_error_code_t;
  error_message : list byte
}.

(** The statics as the initialisers leave them: [QI_ERROR_NONE] and [{0}]. *)
Definition initial_error_state : error_state :=
  mk_error_state QI_ERROR_NONE (repeat x00 error_message_size).

(** The string a [char*] designates: the bytes at the pointer up to the
    first NUL (or to the end of the bytes the model holds). *)
Fixpoint c_string (mem : list byte) : list byte :=
  match mem with
  | [] => []
  | b :: rest => if Byte.eqb b x00 then [] else b :: c_string rest
  end.

(** The [n] bytes [strncpy] writes: the bytes of [src] up to its NUL, cut
    at [n], and NULs for the remainder. *)
Fixpoint strncpy_bytes (src : list byte) (n : nat) {struct n} : list byte :=
  match n with
  | O => []
  | S n' =>
      match src with
      | [] => repeat x00 n
      | b :: rest =>
          if Byte.eqb b x00 then repeat x00 n
          else b :: strncpy_bytes rest n'
      end
  end.

(** [strncpy(dest, src, n)] on an array [dest] of at least [n] bytes: the
    first [n] bytes are written, the rest is left. *)
Definition strncpy (dest src : list byte) (n : nat) : list byte :=
  strncpy_bytes src n ++ skipn n dest.

(** [buf[i] = b]; an index outside the array is not written. *)
Definition store_char (buf : list byte) (i : nat) (b : byte) : list byte :=
  firstn i buf ++
  match skipn i buf with
  | [] => []
  | _ :: rest => b :: rest
  end.

(** [message] is [None] for a null pointer, and otherwise the bytes it
    points to. *)
Definition qi_set_error (code : qi_error_code_t) (message : option (list byte))
    (st : error_state) : error_state :=
  mk_error_state code
    match message with
    | Some src =>
        store_char (strncpy (error_message st) src (error_message_size - 1))
          (error_message_size - 1) x00
    | None => store_char (error_message st) 0 x00
    end.

Definition qi_get_last_error (st : error_state) : qi_error_code_t :=
  last_error st.

(** The pointer returned designates the array itself; what a caller reads
    through it as a string is [c_string] of the array. *)
Definition qi_get_error_message (st : error_state) : list byte :=
  error_message st.

(** A sequence of [qi_set_error] calls, first call first. *)
Fixpoint set_errors (calls : list (qi_error_code_t * option (list byte)))
    (st : error_state) : error_state :=
  match calls with
  | [] => st
  | (code, message) :: rest => set_errors rest (qi_set_error code message st)
  end.

End Errors.

(** ** memory.c: the allocation counter *)

Module Memory.

(** [size_t] is 64 bits. *)
Definition to_size_t : Z -> Z := to_uint64.

Definition size_t_range (x : Z) : Prop := 0 <= x < 2 ^ 64.

Definition NULL : Z := 0.

(** The C library's allocator, over a heap of its own: [malloc] and
    [realloc] answer a pointer. *)
Record libc (H : Type) : Type := mk_libc {
  malloc : Z -> H -> Z * H;
  realloc : Z -> Z -> H -> Z * H;
  free : Z -> H -> H
}.

Arguments mk_libc {H} malloc realloc free.
Arguments malloc {H} l size h.
Arguments realloc {H} l ptr size h.
Arguments free {H} l ptr h.

(** The static [total_allocated] and the allocator's heap. *)
Record mem_state (H : Type) : Type := mk_mem_state {
  total_allocated : Z;
  heap : H
}.

Arguments mk_mem_state {H} total_allocated heap.
Arguments total_allocated {H} m.
Arguments heap {H} m.

Section WithLibc.
Context {H : Type} (c : libc H).

Definition qi_malloc (size : Z) (st : mem_state H) : Z * mem_state H :=
  let (ptr, h) := malloc c size (heap st) in
  (ptr,
   mk_mem_state
     (if ptr =? NULL then total_allocated st
      else to_size_t (total_allocated st + size))
     h).

Definition qi_realloc (ptr size : Z) (st : mem_state H) : Z * mem_state H :=
  let (new_ptr, h) := realloc c ptr size (heap st) in
  (new_ptr, mk_mem_state (total_allocated st) h).

Definition qi_free (ptr : Z) (st : mem_state H) : mem_state H :=
  mk_mem_state (total_allocated st) (free c ptr (heap st)).

Definition qi_get_allocated_memory (st : mem_state H) : Z :=
  total_allocated st.

Definition qi_reset_memory_stats (st : mem_state H) : mem_state H :=
  mk_mem_state 0 (heap st).

(** Calls into the file, and their results in order (0 for a [void]
    function). *)
Inductive mem_call : Type :=
| CallMalloc (size : Z)
| CallRealloc (ptr size : Z)
| CallFree (ptr : Z)
| CallGet
| CallReset.

Definition mem_step (call : mem_call) (st : mem_state H) : Z * mem_state H :=
  match call with
  | CallMalloc size => qi_malloc size st
  | CallRealloc ptr size => qi_realloc ptr size st
  | CallFree ptr => (0, qi_free ptr st)
  | CallGet => (qi_get_allocated_memory st, st)
  | CallReset => (0, qi_reset_memory_stats st)
  end.

Fixpoint mem_run (calls : list mem_call) (st : mem_state H)
    : list Z * mem_state H :=
  match calls with
  | [] => ([], st)
  | call :: rest =>
      let (v, st1) := mem_step call st in
      let (vs, st2) := mem_run rest st1 in
      (v :: vs, st2)
  end.

End WithLibc.

Definition is_reset (call : mem_call) : bool :=
  match call with CallReset => true | _ => false end.

Definition is_malloc (call : mem_call) : bool :=
  match call with CallMalloc _ => true | _ => false end.

(** The bytes a call adds to the counter, given the pointer it returned. *)
Definition credited (call : mem_call) (returned : Z) : Z :=
  match call with
  | CallMalloc size => if returned =? NULL then 0 else size
  | _ => 0
  end.

Fixpoint credited_sum (calls : list mem_call) (returned : list Z) : Z :=
  match calls, returned with
  | call :: calls', v :: returned' => credited call v + credited_sum calls' returned'
  | _, _ => 0
  end.

(** An allocator to run on: blocks are handed out one after the other from
    address 4096, a request above [limit] bytes fails, and nothing is
    reused. *)
Definition bump_libc (limit : Z) : libc Z :=
  mk_libc
    (fun size brk => if size <=? limit then (brk, brk + size) else (NULL, brk))
    (fun _ size brk => if size <=? limit then (brk, brk + size) else (NULL, brk))
    (fun _ brk => brk).

Definition fresh : mem_state Z := mk_mem_state 0 4096.

End Memory.

(** * Properties *)

(** ** Machine arithmetic *)

(** Ranges and conversions, down to inequalities between numerals. *)
Ltac unfold_ranges :=
  unfold in_int, in_int64, in_dword, INT_MIN, INT_MAX, INT64_MIN, INT64_MAX,
    UINT32_MAX, to_int, to_int64, to_dword, to_uint64,
    wrap_signed, wrap_unsigned in *;
  change (2 ^ (32 - 1)) with 2147483648 in *;
  change (2 ^ (64 - 1)) with 9223372036854775808 in *;
  change (2 ^ 31) with 2147483648 in *;
  change (2 ^ 32) with 4294967296 in *;
  change (2 ^ 63) with 9223372036854775808 in *;
  change (2 ^ 64) with 18446744073709551616 in *.

(** A range condition on concrete numbers or on bounded variables. *)
Ltac in_range := unfold_ranges; simpl; lia.

Lemma to_int_small (x : Z) : in_int x -> to_int x = x.
Proof. intros Hx; unfold_ranges; rewrite Z.mod_small; lia. Qed.

Lemma to_int64_small (x : Z) : in_int64 x -> to_int64 x = x.
Proof. intros Hx; unfold_ranges; rewrite Z.mod_small; lia. Qed.

Lemma to_int64_range (x : Z) : in_int64 (to_int64 x).
Proof.
  unfold_ranges.
  pose proof (Z.mod_pos_bound (x + 9223372036854775808) 18446744073709551616).
  lia.
Qed.

Lemma to_int64_idem (x : Z) : to_int64 (to_int64 x) = to_int64 x.
Proof. apply to_int64_small, to_int64_range. Qed.

(** A conversion to [int64_t] moves the value by a multiple of 2^64. *)
Lemma to_int64_congr (x : Z) : exists k : Z, to_int64 x = x - k * 2 ^ 64.
Proof.
  exists ((x + 2 ^ 63) / 2 ^ 64).
  unfold to_int64, wrap_signed.
  change (2 ^ (64 - 1)) with (2 ^ 63).
  rewrite Z.mod_eq by (change (2 ^ 64) with 18446744073709551616; lia).
  lia.
Qed.

Lemma to_int64_add_l (a b : Z) : to_int64 (to_int64 a + b) = to_int64 (a + b).
Proof.
  unfold to_int64, wrap_signed.
  change (2 ^ (64 - 1)) with 9223372036854775808.
  change (2 ^ 64) with 18446744073709551616.
  f_equal.
  replace ((a + 9223372036854775808) mod 18446744073709551616
           - 9223372036854775808 + b + 9223372036854775808)
    with ((a + 9223372036854775808) mod 18446744073709551616 + b) by lia.
  rewrite Z.add_mod_idemp_l by lia.
  f_equal; lia.
Qed.

Lemma to_int64_of_uint64 (x : Z) : to_int64 (to_uint64 x) = to_int64 x.
Proof.
  unfold to_int64, to_uint64, wrap_signed, wrap_unsigned.
  change (2 ^ (64 - 1)) with 9223372036854775808.
  change (2 ^ 64) with 18446744073709551616.
  rewrite Z.add_mod_idemp_l by lia.
  reflexivity.
Qed.

Lemma to_uint64_mul_l (a b : Z) : to_uint64 (to_uint64 a * b) = to_uint64 (a * b).
Proof.
  unfold to_uint64, wrap_unsigned.
  apply Z.mul_mod_idemp_l.
  change (2 ^ 64) with 18446744073709551616; lia.
Qed.

(** The nanosecond count of a reading that fits is the exact sum. *)
Lemma timespec_ns_exact (ts : timespec) :
  timespec_fits ts -> timespec_ns ts = tv_sec ts * 1000000000 + tv_nsec ts.
Proof.
  unfold timespec_fits, timespec_ns, ll_add, ll_mul; intros Hfit.
  rewrite to_int64_idem, to_int64_add_l.
  now apply to_int64_small.
Qed.

Lemma timespec_ns_wrapped (ts : timespec) :
  timespec_ns ts = to_int64 (tv_sec ts * 1000000000 + tv_nsec ts).
Proof.
  unfold timespec_ns, ll_add, ll_mul.
  now rewrite to_int64_idem, to_int64_add_l.
Qed.

(** ** Running programs *)

Section Run.
Context {W : Type} (h : os_model W).

Lemma run_sys {A : Type} (c : oscall) (k : resp c -> prog A) (m : machine W) :
  run h (Sys c k) m =
  logged (EvSys c)
    (run h (k (answer h c (os m))) (mk_machine (statics m) (after h c (os m)))).
Proof.
  unfold answer, after; simpl.
  destruct (h c (os m)) as [r w]; reflexivity.
Qed.

Lemma run_call_bind {A : Type} (c : oscall) (f : resp c -> prog A) (m : machine W) :
  run h (x <- call c ;; f x) m =
  logged (EvSys c)
    (run h (f (answer h c (os m))) (mk_machine (statics m) (after h c (os m)))).
Proof. unfold call; simpl bind; apply run_sys. Qed.

End Run.

(** ** sleep *)

(** C1.  A negative duration is rejected before anything else happens: the
    sleep is the program that returns -1 at once, so whatever the operating
    system is, running it makes no OS call (in particular no wait), and
    leaves the machine as it found it. *)
Theorem sleep_negative_rejected (p : platform) (ms : Z) :
  ms < 0 ->
  qi_async_sys_sleep_ms p ms = Ret (-1) /\
  forall (W : Type) (h : os_model W) (m : machine W),
    run h (qi_async_sys_sleep_ms p ms) m = mk_result (Returned (-1)) m [].
Proof.
  intros Hneg.
  assert (Hprog : qi_async_sys_sleep_ms p ms = Ret (-1)).
  { unfold qi_async_sys_sleep_ms.
    destruct (Z.ltb_spec ms 0) as [_ | Hge]; [reflexivity | lia]. }
  split; [exact Hprog | intros W h m; rewrite Hprog; reflexivity].
Qed.

Lemma sleep_negative_rejected_witness :
  -1 < 0 /\
  run failing_os (qi_async_sys_sleep_ms Posix (-1)) boot
    = mk_result (Returned (-1)) boot [].
Proof.
  split; [lia | ].
  apply (sleep_negative_rejected Posix (-1)); lia.
Defined.

Lemma sleep_nonneg_posix (p : platform) (ms : Z) :
  0 <= ms -> is_win32 p = false ->
  qi_async_sys_sleep_ms p ms =
  (r <- call (nanosleep (sleep_req ms)) ;; if r =? -1 then Ret (-1) else Ret 0).
Proof.
  intros Hms Hp; unfold qi_async_sys_sleep_ms.
  destruct (Z.ltb_spec ms 0) as [Hlt | _]; [lia | ].
  destruct p; [discriminate Hp | reflexivity | reflexivity].
Qed.

Lemma sleep_nonneg_win32 (ms : Z) :
  0 <= ms ->
  qi_async_sys_sleep_ms Win32 ms = (_ <- call (Sleep (to_dword ms)) ;; Ret 0).
Proof.
  intros Hms; unfold qi_async_sys_sleep_ms.
  destruct (Z.ltb_spec ms 0) as [Hlt | _]; [lia | reflexivity].
Qed.

(** C2.  A sleep of a non-negative duration makes at most one OS wait call,
    whatever the OS answers; on the POSIX path, when that one [nanosleep]
    reports -1 (the wait was cut short), the sleep returns -1 to its caller
    and the only call it has made is that [nanosleep]. *)
Theorem sleep_interrupted_not_retried
    (p : platform) (ms : Z) (W : Type) (h : os_model W) (m : machine W) :
  0 <= ms ->
  (waits (run h (qi_async_sys_sleep_ms p ms) m) <= 1)%nat /\
  (is_win32 p = false ->
   answer h (nanosleep (sleep_req ms)) (os m) = -1 ->
   value (run h (qi_async_sys_sleep_ms p ms) m) = Returned (-1) /\
   trace (run h (qi_async_sys_sleep_ms p ms) m) = [EvSys (nanosleep (sleep_req ms))]).
Proof.
  intros Hms; split.
  - destruct (is_win32 p) eqn:Hp.
    + destruct p; try discriminate Hp.
      rewrite sleep_nonneg_win32, run_call_bind by exact Hms.
      unfold waits; simpl; lia.
    + rewrite sleep_nonneg_posix, run_call_bind by assumption.
      unfold waits.
      destruct (answer h (nanosleep (sleep_req ms)) (os m) =? -1); simpl; lia.
  - intros Hp Hintr.
    rewrite sleep_nonneg_posix, run_call_bind by assumption.
    rewrite Hintr; simpl; split; reflexivity.
Qed.

Lemma sleep_interrupted_not_retried_witness :
  0 <= 50 /\
  (waits (run failing_os (qi_async_sys_sleep_ms Posix 50) boot) <= 1)%nat /\
  value (run failing_os (qi_async_sys_sleep_ms Posix 50) boot) = Returned (-1).
Proof.
  split; [lia | ].
  destruct (sleep_interrupted_not_retried Posix 50 nat failing_os boot) as [Hw Hi];
    [lia | ].
  split; [exact Hw | ].
  apply Hi; reflexivity.
Defined.

Lemma sleep_req_fields (ms : Z) :
  0 <= ms -> in_int ms ->
  tv_sec (sleep_req ms) = ms / 1000 /\
  tv_nsec (sleep_req ms) = (ms mod 1000) * 1000000.
Proof.
  intros Hms Hint.
  assert (Hmax : ms <= 2147483647) by in_range.
  unfold sleep_req, int_div, int_rem, int_mul; simpl.
  rewrite Z.quot_div_nonneg, Z.rem_mod_nonneg by lia.
  pose proof (Z.mod_pos_bound ms 1000 ltac:(lia)) as Hmod.
  pose proof (Z.div_pos ms 1000 Hms ltac:(lia)) as Hdiv0.
  assert (Hdiv : ms / 1000 <= ms) by (apply Z.div_le_upper_bound; lia).
  assert (Hi : forall x, 0 <= x <= 2147483647 -> to_int x = x)
    by (intros x Hx; apply to_int_small; in_range).
  assert (Hl : forall x, 0 <= x <= 2147483647 -> to_int64 x = x)
    by (intros x Hx; apply to_int64_small; in_range).
  rewrite (Hi (ms / 1000)), (Hi (ms mod 1000)) by lia.
  rewrite (Hi (ms mod 1000 * 1000000)) by lia.
  rewrite !Hl by lia.
  split; reflexivity.
Qed.

(** C3.  For a duration [ms >= 0] (an [int]), the [timespec] the POSIX path
    passes to [nanosleep] is a valid one worth exactly [ms] milliseconds:
    tv_sec * 10^9 + tv_nsec = ms * 10^6 with 0 <= tv_nsec < 10^9 and
    0 <= tv_sec; and that request is the one call the sleep makes. *)
Theorem sleep_requests_exact_duration (ms : Z) :
  0 <= ms -> in_int ms ->
  tv_sec (sleep_req ms) * 1000000000 + tv_nsec (sleep_req ms) = ms * 1000000 /\
  0 <= tv_nsec (sleep_req ms) < 1000000000 /\
  0 <= tv_sec (sleep_req ms) /\
  forall (p : platform) (W : Type) (h : os_model W) (m : machine W),
    is_win32 p = false ->
    trace (run h (qi_async_sys_sleep_ms p ms) m) = [EvSys (nanosleep (sleep_req ms))].
Proof.
  intros Hms Hint.
  destruct (sleep_req_fields ms Hms Hint) as [Hsec Hnsec].
  pose proof (Z.mod_pos_bound ms 1000 ltac:(lia)) as Hmod.
  pose proof (Z.div_pos ms 1000 Hms ltac:(lia)) as Hdiv0.
  pose proof (Z.div_mod ms 1000 ltac:(lia)) as Hdm.
  rewrite Hsec, Hnsec.
  repeat split; try lia.
  intros p W h m Hp.
  rewrite sleep_nonneg_posix, run_call_bind by assumption.
  destruct (answer h (nanosleep (sleep_req ms)) (os m) =? -1); reflexivity.
Qed.

Lemma sleep_requests_exact_duration_witness :
  0 <= 1500 /\ in_int 1500 /\
  sleep_req 1500 = mk_timespec 1 500000000 /\
  tv_sec (sleep_req 1500) * 1000000000 + tv_nsec (sleep_req 1500) = 1500 * 1000000.
Proof.
  assert (Hint : in_int 1500) by in_range.
  split; [lia | ].
  split; [exact Hint | ].
  split; [reflexivity | ].
  apply (sleep_requests_exact_duration 1500); [lia | exact Hint].
Defined.

(** ** The clocks *)

Section Clocks.
Context {W : Type} (h : os_model W).

Lemma run_read_clock_ns (clk : clockid) (m : machine W) :
  run h (read_clock_ns clk) m =
  mk_result
    (Returned (if negb (fst (answer h (clock_gettime clk) (os m)) =? 0) then -1
               else timespec_ns (snd (answer h (clock_gettime clk) (os m)))))
    (mk_machine (statics m) (after h (clock_gettime clk) (os m)))
    [EvSys (clock_gettime clk)].
Proof.
  unfold read_clock_ns; rewrite run_call_bind.
  destruct (answer h (clock_gettime clk) (os m)) as [rc ts]; simpl.
  destruct (rc =? 0); reflexivity.
Qed.

Lemma posix_clock_prog (p : platform) (op : clock_op) :
  is_win32 p = false -> clock_prog p op = read_clock_ns (clock_of op).
Proof. destruct p, op; intros Hp; try discriminate Hp; reflexivity. Qed.

Lemma run_monotonic_win32 (m : machine W) :
  value (run h (qi_async_sys_monotonic_time_ns Win32) m) =
  if clock_api_error h Win32 Monotonic (os m) then Returned (-1)
  else clock_api_value h Win32 Monotonic (os m).
Proof.
  unfold qi_async_sys_monotonic_time_ns, clock_api_error, clock_api_value.
  rewrite run_call_bind.
  destruct (answer h QueryPerformanceFrequency (os m)) as [ok_f frequency].
  cbn [fst snd value logged].
  destruct (ok_f =? 0); [reflexivity | ].
  rewrite run_call_bind; cbn [os].
  destruct (answer h QueryPerformanceCounter _) as [ok_c counter].
  cbn [fst snd value logged orb].
  destruct (ok_c =? 0); [reflexivity | ].
  unfold counter_ns; destruct (ll_div_faults _ frequency); reflexivity.
Qed.

Lemma run_cpu_time_win32 (m : machine W) :
  run h (qi_async_sys_cpu_time_ns Win32) m =
  mk_result
    (Returned (if fst (process_times_answer h (os m)) =? 0 then -1
               else process_times_ns (snd (process_times_answer h (os m)))))
    (mk_machine (statics m)
       (after h (GetProcessTimes (answer h GetCurrentProcess (os m)))
          (after h GetCurrentProcess (os m))))
    [EvSys GetCurrentProcess;
     EvSys (GetProcessTimes (answer h GetCurrentProcess (os m)))].
Proof.
  unfold qi_async_sys_cpu_time_ns, process_times_answer.
  rewrite run_call_bind, run_call_bind; cbn [os statics].
  destruct (answer h (GetProcessTimes _) _) as [ok pt]; cbn [fst snd].
  destruct (ok =? 0); reflexivity.
Qed.
End Clocks.

Lemma timespec_le_ns (a b : timespec) :
  timespec_valid a -> timespec_valid b -> timespec_le a b ->
  tv_sec a * 1000000000 + tv_nsec a <= tv_sec b * 1000000000 + tv_nsec b.
Proof.
  unfold timespec_valid, timespec_le; intros [_ Ha] [_ Hb] [Hlt | [Heq Hle]]; nia.
Qed.

(** C4, as the claim states it, fails: a monotonic clock that reads
    9223372036 s + 0 ns and then 9223372036 s + 999999999 ns hands the layer
    two valid, non-decreasing readings through two successful
    [clock_gettime] calls; the first call returns 9223372036000000000 and
    the second, whose nanosecond count exceeds 2^63 - 1, returns
    -9223372036709551617. *)
Lemma monotonic_posix_wraps_backwards :
  let sys := healthy_os late_clock 10000000 early_counter 4 in
  let first := run sys (qi_async_sys_monotonic_time_ns Posix) boot in
  let second := run sys (qi_async_sys_monotonic_time_ns Posix) (final first) in
  answer sys (clock_gettime CLOCK_MONOTONIC) (os boot)
    = (0, mk_timespec 9223372036 0) /\
  answer sys (clock_gettime CLOCK_MONOTONIC) (os (final first))
    = (0, mk_timespec 9223372036 999999999) /\
  timespec_valid (mk_timespec 9223372036 0) /\
  timespec_valid (mk_timespec 9223372036 999999999) /\
  timespec_le (mk_timespec 9223372036 0) (mk_timespec 9223372036 999999999) /\
  value first = Returned 9223372036000000000 /\
  value second = Returned (-9223372036709551617) /\
  ~ (9223372036000000000 <= -9223372036709551617).
Proof.
  cbv zeta.
  assert (Hvalid : forall ns, 0 <= ns < 1000000000 ->
                     timespec_valid (mk_timespec 9223372036 ns)).
  { intros ns Hns; unfold timespec_valid; in_range. }
  split; [reflexivity | ].
  split; [reflexivity | ].
  split; [apply Hvalid; lia | ].
  split; [apply Hvalid; lia | ].
  split; [right; simpl; lia | ].
  split; [vm_compute; reflexivity | ].
  split; [vm_compute; reflexivity | lia].
Qed.

(** C4, amended.  On the POSIX path (Apple included), let two successful
    calls of the monotonic clock read [r1] and then [r2], two valid
    timespecs with [r1] not later than [r2], each worth a number of
    nanoseconds that fits in a signed 64-bit integer.  Then both calls return
    a timestamp, the exact nanosecond count of the reading, and the second
    timestamp is not smaller than the first. *)
Theorem monotonic_posix_nondecreasing
    (p : platform) (W : Type) (h : os_model W) (m1 m2 : machine W)
    (r1 r2 : timespec) :
  is_win32 p = false ->
  answer h (clock_gettime CLOCK_MONOTONIC) (os m1) = (0, r1) ->
  answer h (clock_gettime CLOCK_MONOTONIC) (os m2) = (0, r2) ->
  timespec_valid r1 -> timespec_valid r2 ->
  timespec_fits r1 -> timespec_fits r2 ->
  timespec_le r1 r2 ->
  exists T1 T2 : Z,
    value (run h (qi_async_sys_monotonic_time_ns p) m1) = Returned T1 /\
    value (run h (qi_async_sys_monotonic_time_ns p) m2) = Returned T2 /\
    T1 = tv_sec r1 * 1000000000 + tv_nsec r1 /\
    T2 = tv_sec r2 * 1000000000 + tv_nsec r2 /\
    T1 <= T2.
Proof.
  intros Hp Ha1 Ha2 Hv1 Hv2 Hf1 Hf2 Hle.
  exists (timespec_ns r1), (timespec_ns r2).
  change (qi_async_sys_monotonic_time_ns p) with (clock_prog p Monotonic).
  rewrite (posix_clock_prog p Monotonic Hp), !run_read_clock_ns.
  cbn [clock_of value]; rewrite Ha1, Ha2; cbn [fst snd Z.eqb negb].
  rewrite (timespec_ns_exact r1 Hf1), (timespec_ns_exact r2 Hf2).
  repeat split; try reflexivity.
  now apply timespec_le_ns.
Qed.

Lemma monotonic_posix_nondecreasing_witness :
  let sys := healthy_os second_clock 10000000 early_counter 4 in
  let first := run sys (qi_async_sys_monotonic_time_ns Posix) boot in
  exists T1 T2 : Z,
    value first = Returned T1 /\
    value (run sys (qi_async_sys_monotonic_time_ns Posix) (final first)) = Returned T2 /\
    T1 = 0 * 1000000000 + 0 /\
    T2 = 1 * 1000000000 + 0 /\
    T1 <= T2.
Proof.
  cbv zeta.
  apply (monotonic_posix_nondecreasing Posix nat
           (healthy_os second_clock 10000000 early_counter 4) boot _
           (mk_timespec 0 0) (mk_timespec 1 0));
    try reflexivity;
    try (unfold timespec_valid, timespec_fits; in_range).
  left; simpl; lia.
Defined.

(** C5.  Each clock read returns the sentinel -1 when the platform clock
    API reports an error to it, and otherwise what the API's reading converts
    to; an error never yields another value.  The sentinel is in-band: a
    successful read of a valid reading (one nanosecond before the epoch)
    returns -1 as well. *)
Theorem clock_error_returns_sentinel
    (p : platform) (op : clock_op) (W : Type) (h : os_model W) (m : machine W) :
  value (run h (clock_prog p op) m) =
    (if clock_api_error h p op (os m) then Returned (-1)
     else clock_api_value h p op (os m))
  /\
  (timespec_valid (eve_clock 0) /\
   clock_api_error (healthy_os eve_clock 10000000 early_counter 4)
     Posix op (os boot) = false /\
   value (run (healthy_os eve_clock 10000000 early_counter 4)
            (clock_prog Posix op) boot) = Returned (-1)).
Proof.
  split.
  - destruct (is_win32 p) eqn:Hp.
    + destruct p; try discriminate Hp.
      destruct op.
      * apply run_monotonic_win32.
      * cbn [clock_prog]; rewrite run_cpu_time_win32.
        unfold clock_api_error, clock_api_value; cbn [value].
        destruct (fst (process_times_answer h (os m)) =? 0); reflexivity.
    + rewrite (posix_clock_prog p op Hp), run_read_clock_ns; cbn [value].
      assert (He : clock_api_error h p op (os m)
                   = negb (fst (answer h (clock_gettime (clock_of op)) (os m)) =? 0))
        by (destruct p, op; try discriminate Hp; reflexivity).
      assert (Hv : clock_api_value h p op (os m)
                   = Returned (timespec_ns
                       (snd (answer h (clock_gettime (clock_of op)) (os m)))))
        by (destruct p, op; try discriminate Hp; reflexivity).
      rewrite He, Hv.
      destruct (negb _); reflexivity.
  - split; [ | split].
    + unfold timespec_valid; in_range.
    + destruct op; reflexivity.
    + destruct op; vm_compute; reflexivity.
Qed.

(** The 64-bit value of a [FILETIME] whose halves are [DWORD]s. *)
Lemma QuadPart_value (low high : Z) :
  in_dword low -> QuadPart low high = high * 2 ^ 32 + low.
Proof.
  unfold in_dword, UINT32_MAX, QuadPart; intros Hlow.
  assert (Hdisjoint : Z.land (Z.shiftl high 32) low = 0).
  { apply Z.bits_inj'; intros n Hn.
    rewrite Z.land_spec, Z.bits_0, Z.shiftl_spec by exact Hn.
    destruct (Z.lt_ge_cases n 32) as [Hlt | Hge].
    - rewrite Z.testbit_neg_r by lia; reflexivity.
    - replace low with (low mod 2 ^ 32) by (apply Z.mod_small; lia).
      rewrite Z.mod_pow2_bits_high by lia.
      apply andb_false_r. }
  pose proof (Z.add_lor_land (Z.shiftl high 32) low) as Hadd.
  rewrite Hdisjoint, Z.add_0_r in Hadd.
  rewrite Hadd; apply f_equal2; [apply Z.shiftl_mul_pow2; lia | reflexivity].
Qed.

Lemma process_times_ns_wrapped (pt : process_times) :
  process_times_ns pt =
  to_int64 ((filetime_ticks (kernel_time pt) + filetime_ticks (user_time pt)) * 100).
Proof.
  unfold process_times_ns, ull_mul, ull_add.
  now rewrite to_uint64_mul_l, to_int64_of_uint64.
Qed.

(** C6, as the claim states it, fails: when [GetProcessTimes] succeeds
    and reports a kernel time of 2^57 ticks (high half 2^25, low half 0) and
    a user time of 0, (kernel + user) * 100 is 14411518807585587200, which
    is no [int64_t], and the read returns -4035225266123964416. *)
Lemma cpu_time_win32_wraps_negative :
  let pt := mk_process_times zero_FILETIME zero_FILETIME
              (mk_FILETIME 0 33554432) zero_FILETIME in
  let sys := reporting_times pt (healthy_os second_clock 10000000 early_counter 4) in
  process_times_answer sys (os boot) = (1, pt) /\
  filetime_ticks (kernel_time pt) = 2 ^ 57 /\
  filetime_ticks (user_time pt) = 0 /\
  (2 ^ 57 + 0) * 100 = 14411518807585587200 /\
  value (run sys (qi_async_sys_cpu_time_ns Win32) boot)
    = Returned (-4035225266123964416) /\
  -4035225266123964416 <> 14411518807585587200.
Proof.
  cbv zeta.
  split; [reflexivity | ].
  split; [reflexivity | ].
  split; [reflexivity | ].
  split; [reflexivity | ].
  split; [vm_compute; reflexivity | lia].
Qed.

(** C6, amended.  A successful CPU-time read makes, on Windows, the calls
    [GetCurrentProcess] and [GetProcessTimes] on the handle obtained, and
    returns (kernel + user) * 100 reduced to the 64 bits of the return type,
    where kernel and user are the 64-bit values
    dwHighDateTime * 2^32 + dwLowDateTime of the two [FILETIME]s reported;
    on POSIX it makes the one call [clock_gettime(CLOCK_PROCESS_CPUTIME_ID)]
    and returns tv_sec * 10^9 + tv_nsec reduced in the same way.  Whenever
    that number of nanoseconds is an [int64_t], the value returned is
    exactly it. *)
Theorem cpu_time_sums_kernel_and_user (W : Type) (h : os_model W) (m : machine W) :
  (forall (ok : Z) (pt : process_times),
     process_times_answer h (os m) = (ok, pt) -> ok <> 0 ->
     in_dword (dwLowDateTime (kernel_time pt)) ->
     in_dword (dwLowDateTime (user_time pt)) ->
     let kernel := dwHighDateTime (kernel_time pt) * 2 ^ 32
                   + dwLowDateTime (kernel_time pt) in
     let user := dwHighDateTime (user_time pt) * 2 ^ 32
                 + dwLowDateTime (user_time pt) in
     trace (run h (qi_async_sys_cpu_time_ns Win32) m)
       = [EvSys GetCurrentProcess;
          EvSys (GetProcessTimes (answer h GetCurrentProcess (os m)))] /\
     value (run h (qi_async_sys_cpu_time_ns Win32) m)
       = Returned (to_int64 ((kernel + user) * 100)) /\
     (in_int64 ((kernel + user) * 100) ->
      value (run h (qi_async_sys_cpu_time_ns Win32) m)
        = Returned ((kernel + user) * 100)))
  /\
  (forall (p : platform) (ts : timespec),
     is_win32 p = false ->
     answer h (clock_gettime CLOCK_PROCESS_CPUTIME_ID) (os m) = (0, ts) ->
     let ns := tv_sec ts * 1000000000 + tv_nsec ts in
     trace (run h (qi_async_sys_cpu_time_ns p) m)
       = [EvSys (clock_gettime CLOCK_PROCESS_CPUTIME_ID)] /\
     value (run h (qi_async_sys_cpu_time_ns p) m) = Returned (to_int64 ns) /\
     (in_int64 ns -> value (run h (qi_async_sys_cpu_time_ns p) m) = Returned ns)).
Proof.
  split.
  - intros ok pt Hans Hok Hlk Hlu kernel user.
    rewrite run_cpu_time_win32, Hans; cbn [fst snd value trace].
    destruct (Z.eqb_spec ok 0) as [Hz | _]; [contradiction | ].
    rewrite process_times_ns_wrapped; unfold filetime_ticks.
    rewrite !QuadPart_value by assumption; fold kernel user.
    split; [reflexivity | split; [reflexivity | ]].
    intros Hfit; now rewrite to_int64_small.
  - intros p ts Hp Hans ns.
    change (qi_async_sys_cpu_time_ns p) with (clock_prog p CpuTime).
    rewrite (posix_clock_prog p CpuTime Hp), run_read_clock_ns.
    cbn [clock_of value trace]; rewrite Hans; cbn [fst snd Z.eqb negb].
    rewrite timespec_ns_wrapped; fold ns.
    split; [reflexivity | split; [reflexivity | ]].
    intros Hfit; now rewrite to_int64_small.
Qed.

Lemma cpu_time_sums_kernel_and_user_witness :
  let sys := healthy_os second_clock 10000000 early_counter 4 in
  let after_two := mk_machine (statics boot) 2%nat in
  value (run sys (qi_async_sys_cpu_time_ns Win32) after_two) = Returned 600 /\
  value (run sys (qi_async_sys_cpu_time_ns Posix) after_two) = Returned 2000000000.
Proof.
  cbv zeta.
  pose proof (cpu_time_sums_kernel_and_user nat
                (healthy_os second_clock 10000000 early_counter 4)
                (mk_machine (statics boot) 2%nat)) as [Hwin Hposix].
  split.
  - apply (Hwin 1 (mk_process_times zero_FILETIME zero_FILETIME
                     (mk_FILETIME 3 0) (mk_FILETIME 3 0)));
      [reflexivity | lia | in_range | in_range | in_range].
  - apply (Hposix Posix (mk_timespec 2 0)); [reflexivity | reflexivity | in_range].
Defined.

(** ** yield and core count *)

Section Scheduling.
Context {W : Type} (h : os_model W).

Lemma run_yield_posix (p : platform) (m : machine W) :
  is_win32 p = false ->
  run h (qi_async_sys_yield p) m =
  mk_result
    (Returned (if answer h sched_yield (os m) =? -1 then -1 else 0))
    (mk_machine (statics m) (after h sched_yield (os m)))
    [EvSys sched_yield].
Proof.
  intros Hp.
  assert (Hprog : qi_async_sys_yield p
                  = (r <- call sched_yield ;; if r =? -1 then Ret (-1) else Ret 0))
    by (destruct p; try discriminate Hp; reflexivity).
  rewrite Hprog, run_call_bind.
  destruct (answer h sched_yield (os m) =? -1); reflexivity.
Qed.

Lemma run_cpu_count (p : platform) (m : machine W) :
  value (run h (qi_async_sys_cpu_count p) m)
  = Returned (if is_win32 p then to_int (reported_cores h p (os m))
              else if reported_cores h p (os m) =? -1 then -1
              else to_int (reported_cores h p (os m))).
Proof.
  destruct p; unfold qi_async_sys_cpu_count, reported_cores;
    rewrite run_call_bind; cbn [is_win32];
    try destruct (answer h (sysconf _SC_NPROCESSORS_ONLN) (os m) =? -1);
    reflexivity.
Qed.
End Scheduling.

(** C7, as the claim states it, fails: when the OS query reports 0
    processors, the call returns 0 on the POSIX path and on the Windows
    path, a result that is not the error value -1 and is not >= 1. *)
Lemma cpu_count_returns_reported_zero :
  let sys := healthy_os second_clock 10000000 early_counter 0 in
  reported_cores sys Posix (os boot) = 0 /\
  reported_cores sys Win32 (os boot) = 0 /\
  value (run sys (qi_async_sys_cpu_count Posix) boot) = Returned 0 /\
  value (run sys (qi_async_sys_cpu_count Win32) boot) = Returned 0 /\
  0 <> -1 /\ ~ (1 <= 0).
Proof.
  cbv zeta; repeat (split; [reflexivity | ]); split; lia.
Qed.

(** C7, amended.  The core-count query returns the count the OS reports,
    as it is: when the OS reports a count [n] with 1 <= n <= INT_MAX, the
    call returns [n], which is not the error value and is >= 1. *)
Theorem cpu_count_returns_reported_count
    (p : platform) (W : Type) (h : os_model W) (m : machine W) (n : Z) :
  reported_cores h p (os m) = n ->
  1 <= n <= INT_MAX ->
  exists v : Z,
    value (run h (qi_async_sys_cpu_count p) m) = Returned v /\
    v = n /\ v <> -1 /\ 1 <= v.
Proof.
  intros Hrep Hn; exists n.
  rewrite run_cpu_count, Hrep.
  assert (Hint : to_int n = n).
  { apply to_int_small; in_range. }
  rewrite Hint.
  destruct (Z.eqb_spec n (-1)) as [Hm1 | _]; [lia | ].
  destruct (is_win32 p); repeat split; lia.
Qed.

Lemma cpu_count_returns_reported_count_witness :
  exists v : Z,
    value (run (healthy_os second_clock 10000000 early_counter 4)
             (qi_async_sys_cpu_count Posix) boot) = Returned v /\
    v = 4 /\ v <> -1 /\ 1 <= v.
Proof.
  apply (cpu_count_returns_reported_count Posix nat
           (healthy_os second_clock 10000000 early_counter 4) boot 4).
  - reflexivity.
  - in_range.
Defined.

(** C8.  On the POSIX path the yield returns -1 exactly when [sched_yield]
    returns -1, and returns 0 otherwise; on the Windows path it returns 0
    whatever [SwitchToThread] answers.  Either way the yield primitive is
    the one OS call made. *)
Theorem yield_fails_iff_os_yield_fails (W : Type) (h : os_model W) (m : machine W) :
  (forall p : platform,
     is_win32 p = false ->
     (value (run h (qi_async_sys_yield p) m) = Returned (-1)
      <-> answer h sched_yield (os m) = -1) /\
     (answer h sched_yield (os m) <> -1 ->
      value (run h (qi_async_sys_yield p) m) = Returned 0) /\
     trace (run h (qi_async_sys_yield p) m) = [EvSys sched_yield])
  /\
  value (run h (qi_async_sys_yield Win32) m) = Returned 0 /\
  trace (run h (qi_async_sys_yield Win32) m) = [EvSys SwitchToThread].
Proof.
  split.
  - intros p Hp; rewrite (run_yield_posix h p m Hp); cbn [value trace].
    destruct (Z.eqb_spec (answer h sched_yield (os m)) (-1)) as [Heq | Hne].
    + repeat split; auto; contradiction.
    + repeat split; auto; intros Habs; [discriminate Habs | contradiction].
  - unfold qi_async_sys_yield; rewrite run_call_bind; split; reflexivity.
Qed.

Lemma yield_fails_iff_os_yield_fails_witness :
  value (run failing_os (qi_async_sys_yield Posix) boot) = Returned (-1) /\
  value (run (healthy_os second_clock 10000000 early_counter 4)
           (qi_async_sys_yield Posix) boot) = Returned 0 /\
  value (run failing_os (qi_async_sys_yield Win32) boot) = Returned 0.
Proof.
  destruct (yield_fails_iff_os_yield_fails nat failing_os boot)
    as [Hfail [Hwin _]].
  destruct (yield_fails_iff_os_yield_fails nat
              (healthy_os second_clock 10000000 early_counter 4) boot)
    as [Hok _].
  destruct (Hfail Posix eq_refl) as [Hiff _].
  destruct (Hok Posix eq_refl) as [_ [Hzero _]].
  split; [apply Hiff; reflexivity | ].
  split; [apply Hzero; vm_compute; discriminate | exact Hwin].
Defined.

(** ** Statelessness *)

Lemma no_statics_bind {A B : Type} (p : prog A) (f : A -> prog B) :
  no_statics p -> (forall a, no_statics (f a)) -> no_statics (bind p f).
Proof.
  intros Hp Hf; induction p as [a | | c k IH | x k IH | x v k IH]; simpl in *.
  - apply Hf.
  - exact I.
  - intros r; apply IH, Hp.
  - contradiction.
  - contradiction.
Qed.

Lemma no_statics_call_bind {A : Type} (c : oscall) (f : resp c -> prog A) :
  (forall r, no_statics (f r)) -> no_statics (x <- call c ;; f x).
Proof. intros Hf; apply no_statics_bind; [intros r; exact I | exact Hf]. Qed.

Lemma read_clock_ns_no_statics (clk : clockid) : no_statics (read_clock_ns clk).
Proof.
  apply no_statics_call_bind; intros [rc ts].
  destruct (negb (rc =? 0)); exact I.
Qed.

Lemma layer_prog_no_statics (p : platform) (op : layer_op) :
  no_statics (layer_prog p op).
Proof.
  destruct op as [ms | | | | ]; cbn [layer_prog].
  - unfold qi_async_sys_sleep_ms.
    destruct (ms <? 0); [exact I | ].
    destruct p; apply no_statics_call_bind; intros r;
      try exact I; destruct (r =? -1); exact I.
  - destruct p; try apply read_clock_ns_no_statics.
    apply no_statics_call_bind; intros [ok_f frequency].
    destruct (ok_f =? 0); [exact I | ].
    apply no_statics_call_bind; intros [ok_c counter].
    destruct (ok_c =? 0); [exact I | ].
    unfold counter_ns; destruct (ll_div_faults _ frequency); exact I.
  - destruct p; try apply read_clock_ns_no_statics.
    apply no_statics_call_bind; intros hProcess.
    apply no_statics_call_bind; intros [ok pt].
    destruct (ok =? 0); exact I.
  - destruct p; apply no_statics_call_bind; intros r;
      try exact I; destruct (r =? -1); exact I.
  - destruct p; apply no_statics_call_bind; intros r;
      try exact I; destruct (r =? -1); exact I.
Qed.

Lemma layer_calls_no_statics (p : platform) (ops : list layer_op) :
  no_statics (layer_calls p ops).
Proof.
  induction ops as [ | op rest IH]; [exact I | ].
  cbn [layer_calls].
  apply no_statics_bind; [apply layer_prog_no_statics | intros v].
  apply no_statics_bind; [exact IH | intros vs; exact I].
Qed.

(** A program that touches no static leaves the statics alone, logs no
    static access, and behaves the same whatever the statics hold. *)
Lemma no_statics_frame {W A : Type} (h : os_model W) (p : prog A) :
  no_statics p ->
  forall m : machine W,
    static_free (trace (run h p m)) = true /\
    statics (final (run h p m)) = statics m /\
    forall s : string -> Z,
      value (run h p (mk_machine s (os m))) = value (run h p m) /\
      os (final (run h p (mk_machine s (os m)))) = os (final (run h p m)) /\
      trace (run h p (mk_machine s (os m))) = trace (run h p m).
Proof.
  induction p as [a | | c k IH | x k IH | x v k IH]; simpl; intros Hp m;
    try contradiction.
  - repeat split.
  - repeat split.
  - destruct (h c (os m)) as [r w].
    destruct (IH r (Hp r) (mk_machine (statics m) w)) as [Hfree [Hst Hind]].
    cbn [logged trace final value static_free forallb is_static_access negb andb].
    split; [exact Hfree | split; [exact Hst | ]].
    intros s; destruct (Hind s) as [Hv [Ho Ht]]; cbn [os] in *.
    split; [exact Hv | split; [exact Ho | now rewrite Ht]].
Qed.

(** C9.  Each of the five operations is a program without a read or a write
    of a static.  So a run of it logs no static access and leaves the statics
    as they were; its value, its OS calls and the OS state it leaves are the
    same whatever the statics hold; and after any sequence of earlier calls
    to the layer the statics are still the initial ones, the operation
    behaving as on a machine that only shares the OS state reached. *)
Theorem layer_is_stateless
    (p : platform) (op : layer_op) (W : Type) (h : os_model W) (m : machine W) :
  no_statics (layer_prog p op) /\
  static_free (trace (run h (layer_prog p op) m)) = true /\
  statics (final (run h (layer_prog p op) m)) = statics m /\
  (forall s : string -> Z,
     value (run h (layer_prog p op) (mk_machine s (os m)))
       = value (run h (layer_prog p op) m) /\
     os (final (run h (layer_prog p op) (mk_machine s (os m))))
       = os (final (run h (layer_prog p op) m)) /\
     trace (run h (layer_prog p op) (mk_machine s (os m)))
       = trace (run h (layer_prog p op) m)) /\
  (forall (earlier : list layer_op) (s : string -> Z),
     static_free (trace (run h (layer_calls p earlier) m)) = true /\
     statics (final (run h (layer_calls p earlier) m)) = statics m /\
     value (run h (layer_prog p op) (final (run h (layer_calls p earlier) m)))
       = value (run h (layer_prog p op)
                  (mk_machine s (os (final (run h (layer_calls p earlier) m)))))).
Proof.
  pose proof (layer_prog_no_statics p op) as Hop.
  destruct (no_statics_frame h _ Hop m) as [Hfree [Hst Hind]].
  split; [exact Hop | ].
  split; [exact Hfree | ].
  split; [exact Hst | ].
  split; [exact Hind | ].
  intros earlier s.
  destruct (no_statics_frame h _ (layer_calls_no_statics p earlier) m)
    as [Hfree' [Hst' _]].
  split; [exact Hfree' | split; [exact Hst' | ]].
  destruct (no_statics_frame h _ Hop (final (run h (layer_calls p earlier) m)))
    as [_ [_ Hind']].
  symmetry; apply Hind'.
Qed.

(** ** The Windows performance counter *)

(** C10.  On the Windows path a successful monotonic read returns
    (counter * 10^9) / frequency computed in signed 64-bit arithmetic,
    provided the division does not fault (the frequency is not 0, and is
    not -1 when the product has wrapped to INT64_MIN, where the read traps
    instead).  For every counter value above 2^63 / 10^9 the product is off
    by a positive multiple of 2^64.  With a 10 MHz counter, the read at tick
    9223372036 returns 922337203600 and the read one tick later returns
    -922337203670: a negative timestamp, smaller than the earlier one, from
    a counter that did not decrease. *)
Theorem monotonic_win32_product_wraps (counter : Z) :
  in_int64 counter ->
  2 ^ 63 < counter * 1000000000 ->
  (forall (W : Type) (h : os_model W) (m : machine W) (ok_f ok_c frequency : Z),
     answer h QueryPerformanceFrequency (os m) = (ok_f, frequency) ->
     answer h QueryPerformanceCounter (after h QueryPerformanceFrequency (os m))
       = (ok_c, counter) ->
     ok_f <> 0 -> ok_c <> 0 ->
     (frequency <> 0 ->
      ~ (ll_mul counter 1000000000 = INT64_MIN /\ frequency = -1) ->
      value (run h (qi_async_sys_monotonic_time_ns Win32) m)
        = Returned (to_int64 (Z.quot (to_int64 (counter * 1000000000)) frequency)))
     /\
     (ll_mul counter 1000000000 = INT64_MIN -> frequency = -1 ->
      value (run h (qi_async_sys_monotonic_time_ns Win32) m) = Trapped))
  /\
  (exists k : Z,
     1 <= k /\ ll_mul counter 1000000000 = counter * 1000000000 - k * 2 ^ 64)
  /\
  (let sys := healthy_os second_clock 10000000 early_counter 4 in
   let first := run sys (qi_async_sys_monotonic_time_ns Win32) boot in
   let second := run sys (qi_async_sys_monotonic_time_ns Win32) (final first) in
   snd (answer sys QueryPerformanceCounter
          (after sys QueryPerformanceFrequency (os boot))) = 9223372036 /\
   snd (answer sys QueryPerformanceCounter
          (after sys QueryPerformanceFrequency (os (final first)))) = 9223372037 /\
   value first = Returned 922337203600 /\
   value second = Returned (-922337203670)).
Proof.
  intros Hrange Hbig; split; [ | split].
  - intros W h m ok_f ok_c frequency Hf Hc Hokf Hokc.
    rewrite run_monotonic_win32.
    unfold clock_api_error, clock_api_value; rewrite Hf, Hc; cbn [fst snd].
    destruct (Z.eqb_spec ok_f 0) as [Hz | _]; [contradiction | ].
    destruct (Z.eqb_spec ok_c 0) as [Hz | _]; [contradiction | ].
    cbn [orb]; unfold ll_div_faults.
    split.
    + intros Hfreq Hnofault.
      destruct (Z.eqb_spec frequency 0) as [Hz | _]; [contradiction | ].
      destruct (Z.eqb_spec (ll_mul counter 1000000000) INT64_MIN) as [Hmin | _];
        destruct (Z.eqb_spec frequency (-1)) as [Hm1 | _]; cbn [orb andb];
        try (exfalso; apply Hnofault; split; assumption);
        unfold counter_to_ns, ll_div, ll_mul; now rewrite to_int64_idem.
    + intros Hmin Hm1; rewrite Hmin, Hm1; reflexivity.
  - unfold ll_mul.
    destruct (to_int64_congr (counter * 1000000000)) as [k Hk].
    exists k; split; [ | exact Hk].
    pose proof (to_int64_range (counter * 1000000000)) as Hr.
    rewrite Hk in Hr; clear Hk.
    unfold in_int64, INT64_MIN, INT64_MAX in Hr.
    change (2 ^ 63) with 9223372036854775808 in *.
    change (2 ^ 64) with 18446744073709551616 in *.
    lia.
  - cbv zeta.
    split; [reflexivity | ].
    split; [reflexivity | ].
    split; vm_compute; reflexivity.
Qed.

Lemma monotonic_win32_product_wraps_witness :
  in_int64 9223372037 /\
  2 ^ 63 < 9223372037 * 1000000000 /\
  ll_mul 9223372037 1000000000 = -9223372036709551616 /\
  (exists k : Z,
     1 <= k /\ ll_mul 9223372037 1000000000 = 9223372037 * 1000000000 - k * 2 ^ 64) /\
  ll_mul 18014398509481984 1000000000 = INT64_MIN /\
  value (run (healthy_os second_clock (-1) (fun _ => 18014398509481984) 4)
           (qi_async_sys_monotonic_time_ns Win32) boot) = Trapped.
Proof.
  assert (Hrange : in_int64 9223372037) by in_range.
  assert (Hbig : 2 ^ 63 < 9223372037 * 1000000000) by in_range.
  assert (Hrange' : in_int64 18014398509481984) by in_range.
  assert (Hbig' : 2 ^ 63 < 18014398509481984 * 1000000000) by in_range.
  split; [exact Hrange | ].
  split; [exact Hbig | ].
  split; [vm_compute; reflexivity | ].
  split; [apply (monotonic_win32_product_wraps 9223372037 Hrange Hbig) | ].
  split; [vm_compute; reflexivity | ].
  destruct (monotonic_win32_product_wraps 18014398509481984 Hrange' Hbig')
    as [Hrun _].
  destruct (Hrun nat (healthy_os second_clock (-1) (fun _ => 18014398509481984) 4)
              boot 1 1 (-1) eq_refl eq_refl) as [_ Htrap]; [lia | lia | ].
  apply Htrap; [vm_compute; reflexivity | reflexivity].
Defined.

(** * Further properties of syscalls.c *)

(** ** sleep *)

Lemma to_dword_small (x : Z) : in_dword x -> to_dword x = x.
Proof. intros Hx; unfold_ranges; apply Z.mod_small; lia. Qed.

(** X1.  On the Windows path a sleep of a non-negative duration cannot
    fail: it returns 0 after the single call [Sleep(ms)], whose argument is
    the duration unchanged by the conversion to [DWORD] and is always below
    0xFFFFFFFF, the value that would make [Sleep] wait forever. *)
Theorem sleep_win32_always_succeeds
    (ms : Z) (W : Type) (h : os_model W) (m : machine W) :
  0 <= ms -> in_int ms ->
  run h (qi_async_sys_sleep_ms Win32 ms) m =
    mk_result (Returned 0)
      (mk_machine (statics m) (after h (Sleep ms) (os m)))
      [EvSys (Sleep ms)]
  /\ ms < 4294967295.
Proof.
  intros Hms Hint.
  assert (Hdw : to_dword ms = ms) by (apply to_dword_small; in_range).
  split; [ | in_range].
  rewrite sleep_nonneg_win32, run_call_bind, Hdw by exact Hms.
  reflexivity.
Qed.

Lemma sleep_win32_always_succeeds_witness :
  value (run failing_os (qi_async_sys_sleep_ms Win32 250) boot) = Returned 0 /\
  trace (run failing_os (qi_async_sys_sleep_ms Win32 250) boot) = [EvSys (Sleep 250)].
Proof.
  destruct (sleep_win32_always_succeeds 250 nat failing_os boot) as [Hrun _];
    [lia | in_range | ].
  rewrite Hrun; split; reflexivity.
Defined.

(** X2.  The sleep returns 0 or -1 and nothing else, for every argument
    and whatever the OS does.  On the POSIX path a non-negative duration
    gives 0 exactly when [nanosleep] returned something other than -1. *)
Theorem sleep_returns_zero_or_minus_one
    (p : platform) (ms : Z) (W : Type) (h : os_model W) (m : machine W) :
  (value (run h (qi_async_sys_sleep_ms p ms) m) = Returned 0 \/
   value (run h (qi_async_sys_sleep_ms p ms) m) = Returned (-1))
  /\
  (0 <= ms -> is_win32 p = false ->
   (value (run h (qi_async_sys_sleep_ms p ms) m) = Returned 0
    <-> answer h (nanosleep (sleep_req ms)) (os m) <> -1)).
Proof.
  split.
  - destruct (Z.lt_ge_cases ms 0) as [Hneg | Hms].
    + right; unfold qi_async_sys_sleep_ms.
      destruct (Z.ltb_spec ms 0) as [_ | Hge]; [reflexivity | lia].
    + apply Z.ge_le_iff in Hms.
      destruct (is_win32 p) eqn:Hp.
      * destruct p; try discriminate Hp.
        rewrite sleep_nonneg_win32, run_call_bind by lia.
        left; reflexivity.
      * rewrite sleep_nonneg_posix, run_call_bind by (assumption || lia).
        destruct (answer h (nanosleep (sleep_req ms)) (os m) =? -1);
          [right | left]; reflexivity.
  - intros Hms Hp.
    rewrite sleep_nonneg_posix, run_call_bind by assumption.
    destruct (Z.eqb_spec (answer h (nanosleep (sleep_req ms)) (os m)) (-1))
      as [Heq | Hne]; cbn [value logged].
    + split; [discriminate | contradiction].
    + split; [intros _; exact Hne | reflexivity].
Qed.

Lemma sleep_returns_zero_or_minus_one_witness :
  value (run (healthy_os second_clock 10000000 early_counter 4)
           (qi_async_sys_sleep_ms Posix 20) boot) = Returned 0.
Proof.
  destruct (sleep_returns_zero_or_minus_one Posix 20 nat
              (healthy_os second_clock 10000000 early_counter 4) boot)
    as [_ Hiff].
  apply Hiff; [lia | reflexivity | vm_compute; discriminate].
Defined.

(** X3.  The request built for [nanosleep] grows with the duration: for
    [int] durations 0 <= a <= b the request for [a] is not later than the
    request for [b], and two durations with the same request are equal. *)
Theorem sleep_req_order_preserving (a b : Z) :
  0 <= a -> a <= b -> in_int b ->
  timespec_le (sleep_req a) (sleep_req b) /\
  (sleep_req a = sleep_req b -> a = b).
Proof.
  intros Ha Hab Hb.
  assert (Hia : in_int a) by in_range.
  destruct (sleep_req_fields a Ha Hia) as [Hsa Hna].
  destruct (sleep_req_fields b ltac:(lia) Hb) as [Hsb Hnb].
  pose proof (Z.div_mod a 1000 ltac:(lia)) as Hda.
  pose proof (Z.div_mod b 1000 ltac:(lia)) as Hdb.
  pose proof (Z.mod_pos_bound a 1000 ltac:(lia)) as Hma.
  pose proof (Z.mod_pos_bound b 1000 ltac:(lia)) as Hmb.
  split.
  - unfold timespec_le; rewrite Hsa, Hsb, Hna, Hnb.
    destruct (Z.eq_dec (a / 1000) (b / 1000)) as [Heq | Hne].
    + right; split; [exact Heq | lia].
    + left.
      assert (Hle : a / 1000 <= b / 1000) by (apply Z.div_le_mono; lia).
      lia.
  - intros Heq.
    assert (Hs : tv_sec (sleep_req a) = tv_sec (sleep_req b)) by now rewrite Heq.
    assert (Hn : tv_nsec (sleep_req a) = tv_nsec (sleep_req b)) by now rewrite Heq.
    rewrite Hsa, Hsb in Hs; rewrite Hna, Hnb in Hn.
    lia.
Qed.

Lemma sleep_req_order_preserving_witness :
  timespec_le (sleep_req 999) (sleep_req 1000).
Proof.
  apply (sleep_req_order_preserving 999 1000); [lia | lia | in_range].
Defined.

(** ** The clocks *)

Lemma to_int64_period (x k : Z) : to_int64 (x + k * 2 ^ 64) = to_int64 x.
Proof.
  unfold to_int64, wrap_signed; f_equal.
  replace (x + k * 2 ^ 64 + 2 ^ (64 - 1)) with (x + 2 ^ (64 - 1) + k * 2 ^ 64) by lia.
  apply Z_mod_plus_full.
Qed.

Lemma to_int64_sub (a b : Z) : to_int64 (to_int64 a - to_int64 b) = to_int64 (a - b).
Proof.
  destruct (to_int64_congr b) as [k Hk]; rewrite Hk.
  replace (to_int64 a - (b - k * 2 ^ 64)) with (to_int64 a + (- b + k * 2 ^ 64)) by lia.
  rewrite to_int64_add_l.
  replace (a + (- b + k * 2 ^ 64)) with (a - b + k * 2 ^ 64) by lia.
  apply to_int64_period.
Qed.

Lemma ll_div_positive_divisor (a b : Z) : 0 < b -> ll_div_faults a b = false.
Proof.
  intros Hb; unfold ll_div_faults.
  destruct (Z.eqb_spec b 0) as [Hz | _]; [lia | ].
  destruct (Z.eqb_spec b (-1)) as [Hm | _]; [lia | ].
  now rewrite andb_false_r.
Qed.

Lemma counter_to_ns_exact (counter frequency : Z) :
  0 < frequency -> 0 <= counter -> counter * 1000000000 <= INT64_MAX ->
  counter_to_ns counter frequency = counter * 1000000000 / frequency.
Proof.
  intros Hf Hc Hmax.
  assert (Hp : 0 <= counter * 1000000000) by lia.
  assert (Hq0 : 0 <= counter * 1000000000 / frequency) by (apply Z.div_pos; lia).
  assert (Hq : counter * 1000000000 / frequency <= counter * 1000000000).
  { apply Z.div_le_upper_bound; [lia | nia]. }
  unfold counter_to_ns, ll_div, ll_mul.
  rewrite (to_int64_small (counter * 1000000000)) by in_range.
  rewrite Z.quot_div_nonneg by lia.
  rewrite to_int64_idem.
  apply to_int64_small; in_range.
Qed.

(** X4.  On the Windows path, while the counter is non-negative and
    counter * 10^9 still fits in a signed 64-bit integer, a successful
    monotonic read at a positive frequency returns exactly
    counter * 10^9 / frequency (rounded down), and a later read at the same
    frequency with a counter at least as large returns a timestamp at least
    as large. *)
Theorem monotonic_win32_exact_in_range
    (W : Type) (h : os_model W) (m1 m2 : machine W)
    (ok_f1 ok_c1 ok_f2 ok_c2 frequency c1 c2 : Z) :
  answer h QueryPerformanceFrequency (os m1) = (ok_f1, frequency) ->
  answer h QueryPerformanceCounter (after h QueryPerformanceFrequency (os m1))
    = (ok_c1, c1) ->
  answer h QueryPerformanceFrequency (os m2) = (ok_f2, frequency) ->
  answer h QueryPerformanceCounter (after h QueryPerformanceFrequency (os m2))
    = (ok_c2, c2) ->
  ok_f1 <> 0 -> ok_c1 <> 0 -> ok_f2 <> 0 -> ok_c2 <> 0 ->
  0 < frequency -> 0 <= c1 -> c1 <= c2 -> c2 * 1000000000 <= INT64_MAX ->
  value (run h (qi_async_sys_monotonic_time_ns Win32) m1)
    = Returned (c1 * 1000000000 / frequency) /\
  value (run h (qi_async_sys_monotonic_time_ns Win32) m2)
    = Returned (c2 * 1000000000 / frequency) /\
  c1 * 1000000000 / frequency <= c2 * 1000000000 / frequency.
Proof.
  intros Hf1 Hc1 Hf2 Hc2 Hokf1 Hokc1 Hokf2 Hokc2 Hfreq H0 Hle Hmax.
  assert (Hread : forall m ok_f ok_c c,
            answer h QueryPerformanceFrequency (os m) = (ok_f, frequency) ->
            answer h QueryPerformanceCounter
              (after h QueryPerformanceFrequency (os m)) = (ok_c, c) ->
            ok_f <> 0 -> ok_c <> 0 -> 0 <= c -> c * 1000000000 <= INT64_MAX ->
            value (run h (qi_async_sys_monotonic_time_ns Win32) m)
              = Returned (c * 1000000000 / frequency)).
  { intros m ok_f ok_c c Hf Hc Hokf Hokc Hc0 Hcmax.
    rewrite run_monotonic_win32.
    unfold clock_api_error, clock_api_value; rewrite Hf, Hc; cbn [fst snd].
    destruct (Z.eqb_spec ok_f 0) as [Hz | _]; [contradiction | ].
    destruct (Z.eqb_spec ok_c 0) as [Hz | _]; [contradiction | ].
    cbn [orb]; rewrite ll_div_positive_divisor by exact Hfreq.
    now rewrite counter_to_ns_exact. }
  split; [apply (Hread m1 ok_f1 ok_c1 c1); auto; in_range | ].
  split; [apply (Hread m2 ok_f2 ok_c2 c2); auto; lia | ].
  apply Z.div_le_mono; lia.
Qed.

Lemma monotonic_win32_exact_in_range_witness :
  let sys := healthy_os second_clock 10000000 (fun n => Z.of_nat n * 5000) 4 in
  let first := run sys (qi_async_sys_monotonic_time_ns Win32) boot in
  value first = Returned (5000 * 1000000000 / 10000000) /\
  value (run sys (qi_async_sys_monotonic_time_ns Win32) (final first))
    = Returned (15000 * 1000000000 / 10000000) /\
  5000 * 1000000000 / 10000000 <= 15000 * 1000000000 / 10000000.
Proof.
  cbv zeta.
  apply (monotonic_win32_exact_in_range nat
           (healthy_os second_clock 10000000 (fun n => Z.of_nat n * 5000) 4)
           boot _ 1 1 1 1 10000000 5000 15000);
    try reflexivity; try lia; in_range.
Defined.

(** X5.  The failure paths of the Windows monotonic read.  When
    [QueryPerformanceFrequency] reports failure the read returns -1 without
    reading the counter; when the frequency is obtained and
    [QueryPerformanceCounter] reports failure it returns -1 after these two
    calls; when both succeed and the frequency reported is 0 the division
    traps and no value is returned. *)
Theorem monotonic_win32_failure_paths
    (W : Type) (h : os_model W) (m : machine W) :
  (fst (answer h QueryPerformanceFrequency (os m)) = 0 ->
   run h (qi_async_sys_monotonic_time_ns Win32) m =
     mk_result (Returned (-1))
       (mk_machine (statics m) (after h QueryPerformanceFrequency (os m)))
       [EvSys QueryPerformanceFrequency])
  /\
  (fst (answer h QueryPerformanceFrequency (os m)) <> 0 ->
   fst (answer h QueryPerformanceCounter
          (after h QueryPerformanceFrequency (os m))) = 0 ->
   value (run h (qi_async_sys_monotonic_time_ns Win32) m) = Returned (-1) /\
   trace (run h (qi_async_sys_monotonic_time_ns Win32) m)
     = [EvSys QueryPerformanceFrequency; EvSys QueryPerformanceCounter])
  /\
  (fst (answer h QueryPerformanceFrequency (os m)) <> 0 ->
   fst (answer h QueryPerformanceCounter
          (after h QueryPerformanceFrequency (os m))) <> 0 ->
   snd (answer h QueryPerformanceFrequency (os m)) = 0 ->
   value (run h (qi_async_sys_monotonic_time_ns Win32) m) = Trapped).
Proof.
  unfold qi_async_sys_monotonic_time_ns.
  rewrite run_call_bind.
  destruct (answer h QueryPerformanceFrequency (os m)) as [ok_f frequency].
  cbn [fst snd].
  destruct (Z.eqb_spec ok_f 0) as [Hf0 | Hf1].
  - split; [intros _; reflexivity | split; intros Hne; contradiction].
  - rewrite run_call_bind; cbn [os].
    destruct (answer h QueryPerformanceCounter _) as [ok_c counter].
    cbn [fst snd].
    split; [intros Habs; contradiction | ].
    destruct (Z.eqb_spec ok_c 0) as [Hc0 | Hc1].
    + split; [intros _ _; split; reflexivity | intros _ Hne; contradiction].
    + split; [intros _ Habs; contradiction | ].
      intros _ _ Hz; unfold counter_ns, ll_div_faults; rewrite Hz; reflexivity.
Qed.

Lemma monotonic_win32_failure_paths_witness :
  value (run failing_os (qi_async_sys_monotonic_time_ns Win32) boot) = Returned (-1) /\
  value (run (healthy_os second_clock 0 early_counter 4)
           (qi_async_sys_monotonic_time_ns Win32) boot) = Trapped.
Proof.
  destruct (monotonic_win32_failure_paths nat failing_os boot) as [Hf _].
  destruct (monotonic_win32_failure_paths nat
              (healthy_os second_clock 0 early_counter 4) boot) as [_ [_ Hz]].
  split.
  - rewrite Hf; reflexivity.
  - apply Hz; [vm_compute; discriminate | vm_compute; discriminate | reflexivity].
Defined.

Lemma process_times_ns_not_sentinel (pt : process_times) : process_times_ns pt <> -1.
Proof.
  rewrite process_times_ns_wrapped.
  destruct (to_int64_congr
              ((filetime_ticks (kernel_time pt) + filetime_ticks (user_time pt)) * 100))
    as [k Hk].
  rewrite Hk; change (2 ^ 64) with 18446744073709551616; lia.
Qed.

(** X6.  On the Windows path the CPU-time read returns -1 if and only if
    [GetProcessTimes] reported failure: a successful read returns a multiple
    of 4 (a tick count times 100, modulo 2^64), which is never -1. *)
Theorem cpu_time_win32_sentinel_means_failure
    (W : Type) (h : os_model W) (m : machine W) :
  value (run h (qi_async_sys_cpu_time_ns Win32) m) = Returned (-1)
  <-> fst (process_times_answer h (os m)) = 0.
Proof.
  rewrite run_cpu_time_win32; cbn [value].
  destruct (Z.eqb_spec (fst (process_times_answer h (os m))) 0) as [Hz | Hnz].
  - split; [intros _; exact Hz | reflexivity].
  - split; [ | contradiction].
    intros Heq; injection Heq as Heq.
    now apply process_times_ns_not_sentinel in Heq.
Qed.

(** X7.  On the POSIX path, when the clock's reading is a valid timespec at
    or after the clock's epoch (tv_sec >= 0) whose nanosecond count fits in
    a signed 64-bit integer, a successful read returns that count, which is
    non-negative; so for such readings the read returns -1 if and only if
    [clock_gettime] reported an error. *)
Theorem clock_posix_sentinel_means_failure
    (p : platform) (op : clock_op) (W : Type) (h : os_model W) (m : machine W)
    (rc : Z) (ts : timespec) :
  is_win32 p = false ->
  answer h (clock_gettime (clock_of op)) (os m) = (rc, ts) ->
  timespec_valid ts -> 0 <= tv_sec ts -> timespec_fits ts ->
  (value (run h (clock_prog p op) m) = Returned (-1) <-> rc <> 0) /\
  (rc = 0 ->
   value (run h (clock_prog p op) m)
     = Returned (tv_sec ts * 1000000000 + tv_nsec ts) /\
   0 <= tv_sec ts * 1000000000 + tv_nsec ts).
Proof.
  intros Hp Hans [_ Hns] Hsec Hfit.
  rewrite (posix_clock_prog p op Hp), run_read_clock_ns, Hans.
  cbn [fst snd value]; rewrite (timespec_ns_exact ts Hfit).
  destruct (Z.eqb_spec rc 0) as [Hz | Hnz]; cbn [negb].
  - split.
    + split; [ | contradiction].
      intros Heq; injection Heq as Heq; lia.
    + intros _; split; [reflexivity | lia].
  - split; [split; [intros _; exact Hnz | reflexivity] | contradiction].
Qed.

Lemma clock_posix_sentinel_means_failure_witness :
  value (run (healthy_os second_clock 10000000 early_counter 4)
           (clock_prog Posix CpuTime) (mk_machine (statics boot) 3%nat))
    = Returned (3 * 1000000000 + 0).
Proof.
  apply (clock_posix_sentinel_means_failure Posix CpuTime nat
           (healthy_os second_clock 10000000 early_counter 4)
           (mk_machine (statics boot) 3%nat) 0 (mk_timespec 3 0));
    try reflexivity; unfold timespec_valid, timespec_fits; in_range.
Defined.

(** X8.  Differences survive wrap-around.  On the POSIX path, for two
    successful reads of a clock, the difference of the two returned
    timestamps taken in [int64_t] arithmetic is the exact number of
    nanoseconds between the two readings whenever that number fits in a
    signed 64-bit integer, also when a timestamp itself does not. *)
Theorem elapsed_ns_exact
    (p : platform) (op : clock_op) (W : Type) (h : os_model W)
    (m1 m2 : machine W) (r1 r2 : timespec) :
  is_win32 p = false ->
  answer h (clock_gettime (clock_of op)) (os m1) = (0, r1) ->
  answer h (clock_gettime (clock_of op)) (os m2) = (0, r2) ->
  in_int64 ((tv_sec r2 * 1000000000 + tv_nsec r2)
            - (tv_sec r1 * 1000000000 + tv_nsec r1)) ->
  exists T1 T2 : Z,
    value (run h (clock_prog p op) m1) = Returned T1 /\
    value (run h (clock_prog p op) m2) = Returned T2 /\
    ll_sub T2 T1 = (tv_sec r2 * 1000000000 + tv_nsec r2)
                   - (tv_sec r1 * 1000000000 + tv_nsec r1).
Proof.
  intros Hp Ha1 Ha2 Hfit.
  exists (timespec_ns r1), (timespec_ns r2).
  rewrite (posix_clock_prog p op Hp), !run_read_clock_ns, Ha1, Ha2.
  cbn [fst snd value Z.eqb negb].
  split; [reflexivity | split; [reflexivity | ]].
  unfold ll_sub; rewrite !timespec_ns_wrapped, to_int64_sub.
  now apply to_int64_small.
Qed.

Lemma elapsed_ns_exact_witness :
  let sys := healthy_os late_clock 10000000 early_counter 4 in
  let first := run sys (clock_prog Posix Monotonic) boot in
  exists T1 T2 : Z,
    value first = Returned T1 /\
    value (run sys (clock_prog Posix Monotonic) (final first)) = Returned T2 /\
    ll_sub T2 T1 = (9223372036 * 1000000000 + 999999999)
                   - (9223372036 * 1000000000 + 0).
Proof.
  cbv zeta.
  apply (elapsed_ns_exact Posix Monotonic nat
           (healthy_os late_clock 10000000 early_counter 4) boot _
           (mk_timespec 9223372036 0) (mk_timespec 9223372036 999999999));
    try reflexivity.
  in_range.
Defined.

(** ** All five operations *)

(** X9.  No operation loops or retries: whatever the OS answers, an
    operation makes at most two OS calls, and at most one unless it is one
    of the two Windows clock reads (the monotonic read queries frequency and
    counter, the CPU-time read calls [GetCurrentProcess] and
    [GetProcessTimes]); and apart from the Windows monotonic read, which
    divides by the reported frequency, every operation returns a value. *)
Theorem layer_ops_make_bounded_calls
    (p : platform) (op : layer_op) (W : Type) (h : os_model W) (m : machine W) :
  (List.length (trace (run h (layer_prog p op) m)) <= 2)%nat /\
  (~ (p = Win32 /\ (op = OpMonotonic \/ op = OpCpuTime)) ->
   (List.length (trace (run h (layer_prog p op) m)) <= 1)%nat) /\
  (~ (p = Win32 /\ op = OpMonotonic) ->
   exists v : Z, value (run h (layer_prog p op) m) = Returned v).
Proof.
  assert (Hclock : forall clk,
            (List.length (trace (run h (read_clock_ns clk) m)) <= 1)%nat /\
            exists v : Z, value (run h (read_clock_ns clk) m) = Returned v).
  { intros clk; rewrite run_read_clock_ns; split; [simpl; lia | eexists; reflexivity]. }
  assert (Hone : forall q : prog Z,
            ((List.length (trace (run h q m)) <= 1)%nat /\
             exists v : Z, value (run h q m) = Returned v) ->
            (List.length (trace (run h q m)) <= 2)%nat /\
            (~ (p = Win32 /\ (op = OpMonotonic \/ op = OpCpuTime)) ->
             (List.length (trace (run h q m)) <= 1)%nat) /\
            (~ (p = Win32 /\ op = OpMonotonic) ->
             exists v : Z, value (run h q m) = Returned v)).
  { intros q [Hlen Hval]; split; [lia | split; intros _; assumption]. }
  destruct op as [ms | | | | ]; cbn [layer_prog].
  - apply Hone; unfold qi_async_sys_sleep_ms.
    destruct (ms <? 0); [split; [simpl; lia | eexists; reflexivity] | ].
    destruct p; rewrite run_call_bind;
      try destruct (answer h (nanosleep (sleep_req ms)) (os m) =? -1);
      (split; [simpl; lia | eexists; reflexivity]).
  - destruct p; try (apply Hone, Hclock).
    split; [ | split; intros Habs; exfalso; apply Habs; auto].
    unfold qi_async_sys_monotonic_time_ns; rewrite run_call_bind.
    destruct (answer h QueryPerformanceFrequency (os m)) as [ok_f frequency].
    destruct (ok_f =? 0); [simpl; lia | ].
    rewrite run_call_bind.
    destruct (answer h QueryPerformanceCounter _) as [ok_c counter].
    destruct (ok_c =? 0); [simpl; lia | ].
    unfold counter_ns; destruct (ll_div_faults _ frequency); simpl; lia.
  - destruct p; try (apply Hone, Hclock).
    rewrite run_cpu_time_win32; cbn [trace value].
    split; [simpl; lia | split].
    + intros Habs; exfalso; apply Habs; auto.
    + intros _; eexists; reflexivity.
  - apply Hone; destruct p; unfold qi_async_sys_yield; rewrite run_call_bind;
      try destruct (answer h sched_yield (os m) =? -1);
      (split; [simpl; lia | eexists; reflexivity]).
  - apply Hone; destruct p; unfold qi_async_sys_cpu_count; rewrite run_call_bind;
      try destruct (answer h (sysconf _SC_NPROCESSORS_ONLN) (os m) =? -1);
      (split; [simpl; lia | eexists; reflexivity]).
Qed.

Lemma layer_ops_make_bounded_calls_witness :
  (List.length (trace (run failing_os (layer_prog Posix OpYield) boot)) <= 1)%nat /\
  exists v : Z, value (run failing_os (layer_prog Win32 OpCpuTime) boot) = Returned v.
Proof.
  destruct (layer_ops_make_bounded_calls Posix OpYield nat failing_os boot)
    as [_ [Hone _]].
  destruct (layer_ops_make_bounded_calls Win32 OpCpuTime nat failing_os boot)
    as [_ [_ Hval]].
  split.
  - apply Hone; intros [Habs _]; discriminate Habs.
  - apply Hval; intros [_ Habs]; discriminate Habs.
Defined.

(** * errors.c *)

Section ErrorMessage.
Import Errors.

Lemma strncpy_bytes_length (src : list byte) (n : nat) :
  List.length (strncpy_bytes src n) = n.
Proof.
  revert src; induction n as [ | n IH]; intros src; [reflexivity | ].
  destruct src as [ | b rest]; cbn [strncpy_bytes].
  - apply repeat_length.
  - destruct (Byte.eqb b x00); [apply repeat_length | ].
    cbn [List.length]; now rewrite IH.
Qed.

(** Read as a string, what [strncpy] wrote, followed by a NUL, is the source
    string cut at [n] bytes. *)
Lemma c_string_strncpy_bytes (src tail : list byte) (n : nat) :
  c_string (strncpy_bytes src n ++ x00 :: tail) = firstn n (c_string src).
Proof.
  revert src; induction n as [ | n IH]; intros src; [reflexivity | ].
  destruct src as [ | b rest]; [reflexivity | ].
  cbn [strncpy_bytes c_string].
  destruct (Byte.eqb b x00) eqn:Hb; [reflexivity | ].
  cbn [app c_string firstn]; rewrite Hb, IH; reflexivity.
Qed.

Lemma store_char_last (l : list byte) (old b : byte) :
  store_char (l ++ [old]) (List.length l) b = l ++ [b].
Proof.
  unfold store_char.
  rewrite firstn_app, firstn_all, Nat.sub_diag, skipn_app, skipn_all, Nat.sub_diag.
  cbn [firstn skipn app]; now rewrite app_nil_r.
Qed.

(** The array after a call with a message: the 255 bytes [strncpy] wrote and
    the NUL stored behind them. *)
Lemma error_message_after_set (code : qi_error_code_t) (src : list byte)
    (st : error_state) :
  List.length (error_message st) = error_message_size ->
  error_message (qi_set_error code (Some src) st)
  = strncpy_bytes src (error_message_size - 1) ++ [x00].
Proof.
  intros Hlen; cbn [qi_set_error error_message]; unfold strncpy.
  assert (Htail : exists old, skipn (error_message_size - 1) (error_message st) = [old]).
  { pose proof (length_skipn (error_message_size - 1) (error_message st)) as Hl.
    rewrite Hlen in Hl; change (error_message_size - (error_message_size - 1))%nat
      with 1%nat in Hl.
    destruct (skipn (error_message_size - 1) (error_message st)) as [ | old [ | ? ?]];
      try discriminate Hl.
    now exists old. }
  destruct Htail as [old Hold]; rewrite Hold.
  rewrite <- (strncpy_bytes_length src (error_message_size - 1)) at 2.
  apply store_char_last.
Qed.

Lemma error_message_after_null (code : qi_error_code_t) (st : error_state) :
  List.length (error_message st) = error_message_size ->
  error_message (qi_set_error code None st) = x00 :: tl (error_message st).
Proof.
  intros Hlen; cbn [qi_set_error error_message]; unfold store_char.
  destruct (error_message st) as [ | b rest]; [discriminate Hlen | reflexivity].
Qed.

Lemma set_error_length (code : qi_error_code_t) (message : option (list byte))
    (st : error_state) :
  List.length (error_message st) = error_message_size ->
  List.length (error_message (qi_set_error code message st)) = error_message_size.
Proof.
  intros Hlen; destruct message as [src | ].
  - rewrite error_message_after_set by exact Hlen.
    rewrite length_app, strncpy_bytes_length; reflexivity.
  - rewrite error_message_after_null by exact Hlen.
    destruct (error_message st); [discriminate Hlen | exact Hlen].
Qed.

Lemma c_string_nul_free (s : list byte) :
  Forall (fun b => b <> x00) s -> c_string s = s.
Proof.
  induction 1 as [ | b rest Hb _ IH]; [reflexivity | ].
  cbn [c_string].
  destruct (Byte.eqb b x00) eqn:Heq; [ | now rewrite IH].
  apply Byte.byte_dec_bl in Heq; contradiction.
Qed.

Lemma c_string_bounded (buf : list byte) (n : nat) :
  nth_error buf n = Some x00 -> (List.length (c_string buf) <= n)%nat.
Proof.
  revert buf; induction n as [ | n IH]; intros [ | b rest] Hnth;
    try discriminate Hnth; cbn [c_string].
  - injection Hnth as ->; simpl; lia.
  - destruct (Byte.eqb b x00); [simpl; lia | ].
    cbn [List.length]; apply IH in Hnth; lia.
Qed.

(** X10.  What is set is what is read back: after [qi_set_error(code,
    message)] on an array of 256 bytes, [qi_get_last_error] returns [code]
    and the string read through [qi_get_error_message] is empty for a null
    [message] and otherwise the string at [message] cut to its first 255
    bytes. *)
Theorem set_error_round_trip
    (code : qi_error_code_t) (message : option (list byte)) (st : error_state) :
  List.length (error_message st) = error_message_size ->
  qi_get_last_error (qi_set_error code message st) = code /\
  c_string (qi_get_error_message (qi_set_error code message st))
  = match message with
    | None => []
    | Some src => firstn 255 (c_string src)
    end.
Proof.
  intros Hlen; split; [reflexivity | ].
  unfold qi_get_error_message; destruct message as [src | ].
  - rewrite error_message_after_set by exact Hlen.
    apply c_string_strncpy_bytes.
  - rewrite error_message_after_null by exact Hlen; reflexivity.
Qed.

Lemma set_error_round_trip_witness :
  c_string (qi_get_error_message
              (qi_set_error QI_ERROR_OUT_OF_MEMORY (Some [x6f; x6f; x6d; x00; x21])
                 initial_error_state))
  = firstn 255 (c_string [x6f; x6f; x6d; x00; x21]).
Proof.
  apply (set_error_round_trip QI_ERROR_OUT_OF_MEMORY
           (Some [x6f; x6f; x6d; x00; x21]) initial_error_state).
  reflexivity.
Defined.

(** X11.  A message without a NUL byte of at most 255 bytes is read back
    unchanged; a longer one is read back as its first 255 bytes, so the
    stored string is exactly 255 bytes long and the tail is lost. *)
Theorem set_error_keeps_short_messages
    (code : qi_error_code_t) (src : list byte) (st : error_state) :
  List.length (error_message st) = error_message_size ->
  Forall (fun b => b <> x00) src ->
  let stored := c_string (qi_get_error_message (qi_set_error code (Some src) st)) in
  ((List.length src <= 255)%nat -> stored = src) /\
  ((255 < List.length src)%nat ->
   stored = firstn 255 src /\ List.length stored = 255%nat /\ stored <> src).
Proof.
  intros Hlen Hnul stored.
  assert (Hstored : stored = firstn 255 src).
  { unfold stored, qi_get_error_message.
    rewrite error_message_after_set, c_string_strncpy_bytes by exact Hlen.
    now rewrite c_string_nul_free. }
  split.
  - intros Hshort; rewrite Hstored; now apply firstn_all2.
  - intros Hlong.
    assert (Hl : List.length stored = 255%nat)
      by (rewrite Hstored, length_firstn; lia).
    split; [exact Hstored | split; [exact Hl | ]].
    intros Heq; rewrite Heq in Hl; lia.
Qed.

Lemma set_error_keeps_short_messages_witness :
  c_string (qi_get_error_message
              (qi_set_error QI_ERROR_UNDEFINED (Some [x62; x61; x64])
                 initial_error_state))
  = [x62; x61; x64].
Proof.
  destruct (set_error_keeps_short_messages QI_ERROR_UNDEFINED [x62; x61; x64]
              initial_error_state) as [Hshort _].
  - reflexivity.
  - repeat constructor; discriminate.
  - apply Hshort; simpl; lia.
Defined.

Lemma set_error_terminated (code : qi_error_code_t) (message : option (list byte))
    (st : error_state) :
  List.length (error_message st) = error_message_size ->
  nth_error (error_message st) 255 = Some x00 ->
  nth_error (error_message (qi_set_error code message st)) 255 = Some x00.
Proof.
  intros Hlen Hlast; destruct message as [src | ].
  - rewrite error_message_after_set by exact Hlen.
    rewrite nth_error_app2 by (rewrite strncpy_bytes_length; cbn; lia).
    rewrite strncpy_bytes_length; reflexivity.
  - rewrite error_message_after_null by exact Hlen.
    destruct (error_message st) as [ | b rest]; [discriminate Hlen | exact Hlast].
Qed.

(** X12.  Whatever sequence of [qi_set_error] calls is made from the
    initial statics, with null or arbitrarily long messages, the array
    keeps its 256 bytes, its last byte is NUL, and the string read through
    [qi_get_error_message] ends within the array: it has at most 255 bytes. *)
Theorem error_message_always_terminated
    (calls : list (qi_error_code_t * option (list byte))) :
  let st := set_errors calls initial_error_state in
  List.length (error_message st) = 256%nat /\
  nth_error (error_message st) 255 = Some x00 /\
  (List.length (c_string (qi_get_error_message st)) <= 255)%nat.
Proof.
  cbv zeta.
  assert (Hinv : forall st,
            List.length (error_message st) = error_message_size ->
            nth_error (error_message st) 255 = Some x00 ->
            List.length (error_message (set_errors calls st)) = 256%nat /\
            nth_error (error_message (set_errors calls st)) 255 = Some x00).
  { induction calls as [ | [code message] rest IH]; intros st Hlen Hlast.
    - split; assumption.
    - cbn [set_errors]; apply IH;
        [now apply set_error_length | now apply set_error_terminated]. }
  destruct (Hinv initial_error_state eq_refl eq_refl) as [Hlen Hlast].
  split; [exact Hlen | split; [exact Hlast | ]].
  now apply c_string_bounded.
Qed.

(** X13.  A call with a message overwrites the whole array: after it the
    statics are the same whatever call was made before, so nothing of an
    earlier, longer message stays behind the new one. *)
Theorem set_error_overwrites_completely
    (code1 code2 : qi_error_code_t) (message1 : option (list byte))
    (src2 : list byte) (st : error_state) :
  List.length (error_message st) = error_message_size ->
  qi_set_error code2 (Some src2) (qi_set_error code1 message1 st)
  = qi_set_error code2 (Some src2) st.
Proof.
  intros Hlen.
  pose proof (set_error_length code1 message1 st Hlen) as Hlen1.
  pose proof (error_message_after_set code2 src2 _ Hlen1) as H1.
  pose proof (error_message_after_set code2 src2 _ Hlen) as H2.
  destruct (qi_set_error code2 (Some src2) (qi_set_error code1 message1 st))
    as [c1 b1] eqn:E1.
  destruct (qi_set_error code2 (Some src2) st) as [c2 b2] eqn:E2.
  cbn [error_message] in H1, H2; subst b1 b2.
  f_equal.
  apply (f_equal last_error) in E1, E2; cbn in E1, E2; congruence.
Qed.

Lemma set_error_overwrites_completely_witness :
  qi_set_error QI_ERROR_NONE (Some [x6f; x6b])
    (qi_set_error QI_ERROR_STACK_OVERFLOW (Some [x6f; x76; x65; x72; x66; x6c; x6f; x77])
       initial_error_state)
  = qi_set_error QI_ERROR_NONE (Some [x6f; x6b]) initial_error_state.
Proof.
  apply (set_error_overwrites_completely QI_ERROR_STACK_OVERFLOW QI_ERROR_NONE
           (Some [x6f; x76; x65; x72; x66; x6c; x6f; x77]) [x6f; x6b]
           initial_error_state).
  reflexivity.
Defined.

End ErrorMessage.

(** * memory.c *)

Section AllocationCounter.
Import Memory.
Context {H : Type} (c : libc H).

Lemma to_size_t_range (x : Z) : size_t_range (to_size_t x).
Proof.
  unfold size_t_range, to_size_t, to_uint64, wrap_unsigned.
  apply Z.mod_pos_bound; change (2 ^ 64) with 18446744073709551616; lia.
Qed.

Lemma to_size_t_small (x : Z) : size_t_range x -> to_size_t x = x.
Proof. intros Hx; apply Z.mod_small; exact Hx. Qed.

Lemma to_size_t_add_l (a b : Z) : to_size_t (to_size_t a + b) = to_size_t (a + b).
Proof.
  unfold to_size_t, to_uint64, wrap_unsigned.
  apply Z.add_mod_idemp_l; change (2 ^ 64) with 18446744073709551616; lia.
Qed.

(** One call: the counter moves by what the call is credited, modulo
    2^64, unless the call is the reset. *)
Lemma mem_step_counter (call : mem_call) (st : mem_state H) :
  is_reset call = false -> size_t_range (total_allocated st) ->
  total_allocated (snd (mem_step c call st))
  = to_size_t (total_allocated st + credited call (fst (mem_step c call st))).
Proof.
  intros Hreset Hrange.
  destruct call as [size | ptr size | ptr | | ]; try discriminate Hreset;
    cbn [mem_step credited].
  - unfold qi_malloc; destruct (malloc c size (heap st)) as [p h].
    cbn [fst snd total_allocated].
    destruct (p =? NULL); [ | reflexivity].
    now rewrite Z.add_0_r, to_size_t_small.
  - unfold qi_realloc; destruct (realloc c ptr size (heap st)) as [p h].
    cbn [fst snd total_allocated]; now rewrite Z.add_0_r, to_size_t_small.
  - cbn [fst snd qi_free total_allocated]; now rewrite Z.add_0_r, to_size_t_small.
  - cbn [fst snd]; now rewrite Z.add_0_r, to_size_t_small.
Qed.

Lemma mem_run_counter (calls : list mem_call) (st : mem_state H) :
  forallb (fun call => negb (is_reset call)) calls = true ->
  size_t_range (total_allocated st) ->
  total_allocated (snd (mem_run c calls st))
  = to_size_t (total_allocated st + credited_sum calls (fst (mem_run c calls st))).
Proof.
  revert st; induction calls as [ | call rest IH]; intros st Hnr Hrange.
  - cbn; now rewrite Z.add_0_r, to_size_t_small.
  - cbn [forallb] in Hnr; apply andb_true_iff in Hnr as [Hcall Hrest].
    apply negb_true_iff in Hcall.
    pose proof (mem_step_counter call st Hcall Hrange) as Hstep.
    cbn [mem_run].
    destruct (mem_step c call st) as [v st1]; cbn [fst snd] in Hstep.
    assert (Hr1 : size_t_range (total_allocated st1))
      by (rewrite Hstep; apply to_size_t_range).
    specialize (IH st1 Hrest Hr1).
    destruct (mem_run c rest st1) as [vs st2]; cbn [fst snd credited_sum] in *.
    rewrite IH, Hstep, to_size_t_add_l; f_equal; lia.
Qed.

Lemma mem_run_app (pre post : list mem_call) (st : mem_state H) :
  snd (mem_run c (pre ++ post) st) = snd (mem_run c post (snd (mem_run c pre st))) /\
  fst (mem_run c (pre ++ post) st)
  = fst (mem_run c pre st) ++ fst (mem_run c post (snd (mem_run c pre st))).
Proof.
  revert st; induction pre as [ | call rest IH]; intros st; [split; reflexivity | ].
  cbn [app mem_run].
  destruct (mem_step c call st) as [v st1].
  destruct (IH st1) as [IHs IHf].
  destruct (mem_run c (rest ++ post) st1) as [vs st2].
  destruct (mem_run c rest st1) as [vs1 st3].
  cbn [fst snd] in *; split; [exact IHs | now rewrite IHf].
Qed.

(** X14.  The counter is cumulative.  Over any sequence of calls without a
    reset, the counter ends at its initial value plus the sizes of the
    [qi_malloc] calls that returned a non-null pointer, modulo 2^64; calls
    of [qi_free] and [qi_realloc] and failed allocations add nothing.  When
    that sum does not overflow, the counter is exactly the sum and has not
    decreased. *)
Theorem allocation_counter_is_cumulative
    (calls : list mem_call) (st st' : mem_state H) (returned : list Z) :
  forallb (fun call => negb (is_reset call)) calls = true ->
  size_t_range (total_allocated st) ->
  mem_run c calls st = (returned, st') ->
  qi_get_allocated_memory st'
    = to_size_t (total_allocated st + credited_sum calls returned) /\
  (0 <= credited_sum calls returned ->
   total_allocated st + credited_sum calls returned < 2 ^ 64 ->
   qi_get_allocated_memory st' = total_allocated st + credited_sum calls returned /\
   qi_get_allocated_memory st <= qi_get_allocated_memory st').
Proof.
  intros Hnr Hrange Hrun.
  pose proof (mem_run_counter calls st Hnr Hrange) as Hc.
  rewrite Hrun in Hc; cbn [fst snd] in Hc.
  unfold qi_get_allocated_memory; split; [exact Hc | ].
  intros Hpos Hfit; rewrite Hc.
  rewrite to_size_t_small by (unfold size_t_range in *; lia).
  unfold size_t_range in Hrange; lia.
Qed.

(** X15.  Freeing gives nothing back to the counter: once a [qi_malloc] of
    [size] bytes has succeeded, no sequence of [qi_free], [qi_realloc] and
    [qi_get_allocated_memory] calls, freeing that block included, changes
    the counter, which stays at the earlier value plus [size]. *)
Theorem free_does_not_lower_counter
    (size ptr : Z) (calls : list mem_call) (st st1 : mem_state H) :
  size_t_range (total_allocated st) ->
  qi_malloc c size st = (ptr, st1) ->
  ptr <> NULL ->
  forallb (fun call => negb (is_reset call) && negb (is_malloc call)) calls = true ->
  qi_get_allocated_memory (snd (mem_run c (CallFree ptr :: calls) st1))
  = to_size_t (total_allocated st + size).
Proof.
  intros Hrange Hmalloc Hptr Hcalls.
  assert (Htotal : total_allocated st1 = to_size_t (total_allocated st + size)).
  { unfold qi_malloc in Hmalloc.
    destruct (malloc c size (heap st)) as [p h].
    injection Hmalloc as Hp Hst; subst p st1; cbn [total_allocated].
    destruct (Z.eqb_spec ptr NULL) as [Hz | _]; [contradiction | reflexivity]. }
  assert (Hframe : forall s,
            total_allocated (snd (mem_run c calls s)) = total_allocated s).
  { induction calls as [ | call rest IH]; intros s; [reflexivity | ].
    cbn [forallb] in Hcalls; apply andb_true_iff in Hcalls as [Hcall Hrest].
    cbn [mem_run].
    destruct call as [sz | p sz | p | | ]; try discriminate Hcall; cbn [mem_step].
    - unfold qi_realloc; destruct (realloc c p sz (heap s)) as [q h].
      specialize (IH Hrest (mk_mem_state (total_allocated s) h)).
      destruct (mem_run c rest _) as [vs s2]; exact IH.
    - specialize (IH Hrest (qi_free c p s)).
      destruct (mem_run c rest _) as [vs s2]; exact IH.
    - specialize (IH Hrest s).
      destruct (mem_run c rest s) as [vs s2]; exact IH. }
  unfold qi_get_allocated_memory; cbn [mem_run mem_step].
  specialize (Hframe (qi_free c ptr st1)).
  destruct (mem_run c calls (qi_free c ptr st1)) as [vs s2].
  cbn [snd] in *; rewrite Hframe; exact Htotal.
Qed.

(** X16.  A reset forgets the history: after [qi_reset_memory_stats], and
    any calls without a further reset, the counter is the sum credited to
    those later calls alone, modulo 2^64, whatever was called before the
    reset and whatever the counter was. *)
Theorem reset_forgets_history
    (pre post : list mem_call) (st : mem_state H) :
  forallb (fun call => negb (is_reset call)) post = true ->
  let before := snd (mem_run c pre st) in
  let later := mem_run c post (qi_reset_memory_stats before) in
  snd (mem_run c (pre ++ CallReset :: post) st) = snd later /\
  qi_get_allocated_memory (snd later) = to_size_t (credited_sum post (fst later)).
Proof.
  intros Hnr before later.
  destruct (mem_run_app pre (CallReset :: post) st) as [Hs _].
  split.
  - rewrite Hs; fold before; cbn [mem_run mem_step]; fold later.
    destruct later as [vs s2]; reflexivity.
  - unfold qi_get_allocated_memory, later.
    rewrite mem_run_counter by (exact Hnr || (cbn; unfold size_t_range; in_range)).
    reflexivity.
Qed.

End AllocationCounter.

Lemma allocation_counter_is_cumulative_witness :
  let calls := [Memory.CallMalloc 16; Memory.CallMalloc 5000; Memory.CallFree 4096;
                Memory.CallMalloc 8; Memory.CallGet] in
  Memory.qi_get_allocated_memory
    (snd (Memory.mem_run (Memory.bump_libc 1000) calls Memory.fresh))
  = 0 + Memory.credited_sum calls [4096; 0; 0; 4112; 24] /\
  Memory.credited_sum calls [4096; 0; 0; 4112; 24] = 24.
Proof.
  cbv zeta; split; [ | reflexivity].
  apply (allocation_counter_is_cumulative (Memory.bump_libc 1000)
           [Memory.CallMalloc 16; Memory.CallMalloc 5000; Memory.CallFree 4096;
            Memory.CallMalloc 8; Memory.CallGet]
           Memory.fresh _ [4096; 0; 0; 4112; 24]);
    try reflexivity; try (unfold Memory.size_t_range; simpl; lia).
Defined.

Lemma free_does_not_lower_counter_witness :
  Memory.qi_get_allocated_memory
    (snd (Memory.mem_run (Memory.bump_libc 1000)
            [Memory.CallFree 4096; Memory.CallRealloc 4096 64; Memory.CallGet]
            (snd (Memory.qi_malloc (Memory.bump_libc 1000) 16 Memory.fresh))))
  = Memory.to_size_t (0 + 16).
Proof.
  apply (free_does_not_lower_counter (Memory.bump_libc 1000) 16 4096
           [Memory.CallRealloc 4096 64; Memory.CallGet] Memory.fresh);
    try reflexivity;
    try (unfold Memory.size_t_range, Memory.NULL; simpl; lia).
Defined.

Lemma reset_forgets_history_witness :
  Memory.qi_get_allocated_memory
    (snd (Memory.mem_run (Memory.bump_libc 1000) [Memory.CallMalloc 32]
            (Memory.qi_reset_memory_stats
               (snd (Memory.mem_run (Memory.bump_libc 1000)
                       [Memory.CallMalloc 16] Memory.fresh)))))
  = 32.
Proof.
  destruct (reset_forgets_history (Memory.bump_libc 1000)
              [Memory.CallMalloc 16] [Memory.CallMalloc 32] Memory.fresh eq_refl)
    as [_ Hcount].
  rewrite Hcount; reflexivity.
Defined.
